(** * UmichStudySpaces: the scraping server [server/server.py]

    A shallow embedding of the title parser, the time-range resolver, the
    per-resource scraper, the batch loop and the trigger endpoint, with the
    properties of the specification stated over them.

    Conventions of the embedding.
    - A Python [str] is a [string]; every [ascii] stands for the Unicode
      code point of the same number, so the strings covered are the ones
      whose code points are below 256.  [isspace], [lower] and the regular
      expression classes are the Python ones restricted to that range.
    - A raised exception is the [Raise] case of [result].
    - A [datetime] carries its date as the proleptic Gregorian ordinal
      ([date.toordinal()]), the representation on which Python's own
      [datetime + timedelta] works.
    - [datetime.datetime.now()] reads an oracle: the n-th call returns
      [clock env n].  Output on stdout ([print]) is not modelled.
    - A file holds a text.  Writing one asks the environment what becomes
      of the write: it goes through, [open] raises, or a write raises and
      leaves the file with what had reached it. *)

From Stdlib Require Import ZArith NArith List String Ascii Bool Lia.
From ExtLib Require Import Structures.Monad.
Import ListNotations.
Import MonadNotation.

Local Open Scope string_scope.
Local Open Scope list_scope.
Local Open Scope Z_scope.
Local Open Scope monad_scope.

(** ** Exceptions and results *)

(** The exceptions that the program can raise, one constructor for each
    place that raises.  The two [ValueError]s of [_strptime] and the one of
    [parse_time_range] are told apart by what their message carries. *)
Inductive exn : Type :=
| IndexError
| ValueError_no_time (time_str : string)
| ValueError_strptime (data_string : string)
| ValueError_unconverted (rest : string)
| OverflowError
| FileNotFoundError (filename : string)
| PlaywrightError (message : string)
| OSError (message : string).
(* IndexError              a list index out of range
   ValueError_no_time      the [raise ValueError(...)] that ends
                           parse_time_range; the message carries time_str
   ValueError_strptime     _strptime, time data does not match the format
   ValueError_unconverted  _strptime, unconverted data remains
   OverflowError           datetime.__add__, result out of range
   FileNotFoundError       open() of a file that does not exist
   PlaywrightError         raised by the browser while launching or loading
   OSError                 raised while a file is opened for writing, written
                           or closed *)

Inductive result (A : Type) : Type :=
| OK (a : A)
| Raise (e : exn).

Arguments OK {A} a.
Arguments Raise {A} e.

Definition result_bind {A B : Type} (c : result A) (k : A -> result B) : result B :=
  match c with
  | OK a => k a
  | Raise e => Raise e
  end.

#[global] Instance Monad_result : Monad result :=
  {| ret := @OK; bind := @result_bind |}.

(** ** Python strings and lists

    The built-in operations that the program applies to them. *)

Module PyStr.

(** [str.isspace] on one character; the same set is the class [\s] of
    [re] and the set removed by [str.strip()]. *)
Definition isspace (c : ascii) : bool :=
  let n := N_of_ascii c in
  (((9 <=? n) && (n <=? 13)) || ((28 <=? n) && (n <=? 32))
   || (n =? 133) || (n =? 160))%N.

(** Decimal digits: the class [\d] of [re]. *)
Definition isdigit (c : ascii) : bool :=
  let n := N_of_ascii c in ((48 <=? n) && (n <=? 57))%N.

(** [str.lower] on one character: A-Z, and the upper-case letters of the
    Latin-1 block (U+00C0..U+00DE without the multiplication sign). *)
Definition lower_char (c : ascii) : ascii :=
  let n := N_of_ascii c in
  if (((65 <=? n) && (n <=? 90))
      || ((192 <=? n) && (n <=? 222) && negb (n =? 215)))%N
  then ascii_of_N (n + 32) else c.

Fixpoint lower (s : string) : string :=
  match s with
  | EmptyString => EmptyString
  | String c s' => String (lower_char c) (lower s')
  end.

Fixpoint lstrip (s : string) : string :=
  match s with
  | EmptyString => EmptyString
  | String c s' => if isspace c then lstrip s' else s
  end.

Fixpoint rstrip (s : string) : string :=
  match s with
  | EmptyString => EmptyString
  | String c s' =>
      match rstrip s' with
      | EmptyString => if isspace c then EmptyString else String c EmptyString
      | r => String c r
      end
  end.

(** [s.strip()] *)
Definition strip (s : string) : string := rstrip (lstrip s).

(** [s.split(sep)] for a non-empty [sep]: occurrences of [sep] are found
    left to right and do not overlap.  [skip] counts the characters of
    the occurrence just found that are still to be passed over. *)
Fixpoint split_from (sep : string) (skip : nat) (s : string) : list string :=
  match s with
  | EmptyString => [EmptyString]
  | String c s' =>
      match skip with
      | S k => split_from sep k s'
      | O =>
          if String.prefix sep s
          then EmptyString :: split_from sep (Nat.pred (String.length sep)) s'
          else match split_from sep O s' with
               | seg :: segs => String c seg :: segs
               | [] => [String c EmptyString]
               end
      end
  end.

Definition split (sep s : string) : list string := split_from sep O s.

(** [sep.join(l)] *)
Definition join (sep : string) (l : list string) : string := String.concat sep l.

End PyStr.

Module PyList.

(** [l[i]], with Python's negative indices and its [IndexError]. *)
Definition getitem {A : Type} (l : list A) (i : Z) : result A :=
  let n := Z.of_nat (List.length l) in
  let j := if i <? 0 then i + n else i in
  if (0 <=? j) && (j <? n)
  then match nth_error l (Z.to_nat j) with
       | Some x => OK x
       | None => Raise IndexError
       end
  else Raise IndexError.

(** [l[:stop]]: a negative [stop] counts from the end, and the bounds
    are clipped. *)
Definition slice_to {A : Type} (l : list A) (stop : Z) : list A :=
  let n := Z.of_nat (List.length l) in
  let j := if stop <? 0 then Z.max 0 (stop + n) else Z.min stop n in
  firstn (Z.to_nat j) l.

End PyList.

(** ** The title parser *)

(** [parse_title(title)] returns [(time_str, status, room_name)]. *)
Definition parse_title (title : string) : result (string * string * string) :=
  let parts := map PyStr.strip (PyStr.split " - " title) in
  status <- PyList.getitem parts (-1) ;;
  if (2 <? List.length parts)%nat then
    room_name <- PyList.getitem parts (-2) ;;
    let time_str := PyStr.join " - " (PyList.slice_to parts (-2)) in
    ret (time_str, status, room_name)
  else
    time_str <- PyList.getitem parts 0 ;;
    ret (time_str, status, "Unknown").

(** ** Regular expressions: the fragment of [re] that the program uses *)

Module Re.

(** Character classes are predicates; repetition is only ever applied to a
    class, which is all that the two patterns of the program need. *)
Inductive regex : Type :=
| Cls (p : ascii -> bool)                (* one character of a class *)
| Seq (r1 r2 : regex)                    (* r1r2 *)
| Alt (r1 r2 : regex)                    (* r1|r2, r1 tried first *)
| Rep (lo hi : nat) (p : ascii -> bool)  (* greedy p{lo,hi} *)
| Star (p : ascii -> bool).              (* greedy p* *)

(** One given character, and the same under [re.IGNORECASE]. *)
Definition chr (c : ascii) : regex := Cls (Ascii.eqb c).
Definition ichr (c : ascii) : regex :=
  Cls (fun x => Ascii.eqb (PyStr.lower_char x) (PyStr.lower_char c)).

(** A character range [[a-b]]. *)
Definition range (a b : ascii) : regex :=
  Cls (fun x => ((N_of_ascii a <=? N_of_ascii x) && (N_of_ascii x <=? N_of_ascii b))%N).

Definition d : regex := Cls PyStr.isdigit.   (* \d *)

(** Backtracking matcher in continuation-passing style: [match_k r s k]
    tries the ways [r] can match a prefix of [s] in the priority order of
    [re] and returns the first one that the continuation [k] accepts on
    the rest of the input. *)
Fixpoint star_k {A : Type} (p : ascii -> bool) (s : string)
  (k : string -> option A) : option A :=
  match s with
  | String c s' =>
      if p c
      then match star_k p s' k with
           | Some x => Some x
           | None => k s
           end
      else k s
  | EmptyString => k s
  end.

Fixpoint rep_k {A : Type} (p : ascii -> bool) (lo hi : nat) (s : string)
  (k : string -> option A) : option A :=
  let stop := match lo with O => k s | S _ => None end in
  match hi with
  | O => stop
  | S hi' =>
      match s with
      | String c s' =>
          if p c
          then match rep_k p (Nat.pred lo) hi' s' k with
               | Some x => Some x
               | None => stop
               end
          else stop
      | EmptyString => stop
      end
  end.

Fixpoint match_k {A : Type} (r : regex) (s : string)
  (k : string -> option A) : option A :=
  match r with
  | Cls p =>
      match s with
      | String c s' => if p c then k s' else None
      | EmptyString => None
      end
  | Seq r1 r2 => match_k r1 s (fun s1 => match_k r2 s1 k)
  | Alt r1 r2 =>
      match match_k r1 s k with
      | Some x => Some x
      | None => match_k r2 s k
      end
  | Rep lo hi p => rep_k p lo hi s k
  | Star p => star_k p s k
  end.

(** [re.match(r, s)]: the input left after the match, when there is one. *)
Definition match_at (r : regex) (s : string) : option string := match_k r s Some.

(** The text between the start of [s] and its suffix [rest]. *)
Definition consumed (s rest : string) : string :=
  String.substring 0 (String.length s - String.length rest) s.

(** [re.findall(r, s)] for a pattern without groups that cannot match the
    empty string: non-overlapping matches, left to right.  [skip] counts
    the characters of the last match that are still to be passed over. *)
Fixpoint findall_from (r : regex) (skip : nat) (s : string) : list string :=
  match s with
  | EmptyString => []
  | String c s' =>
      match skip with
      | S k => findall_from r k s'
      | O =>
          match match_at r s with
          | Some rest =>
              let tok := consumed s rest in
              tok :: findall_from r (Nat.pred (String.length tok)) s'
          | None => findall_from r O s'
          end
      end
  end.

Definition findall (r : regex) (s : string) : list string := findall_from r O s.

(** The words of a regular expression, against which the matcher is
    checked below. *)
Fixpoint all_in (p : ascii -> bool) (w : string) : Prop :=
  match w with
  | EmptyString => True
  | String c w' => p c = true /\ all_in p w'
  end.

Fixpoint lang (r : regex) (w : string) : Prop :=
  match r with
  | Cls p => exists c, w = String c EmptyString /\ p c = true
  | Seq r1 r2 => exists w1 w2, w = String.append w1 w2 /\ lang r1 w1 /\ lang r2 w2
  | Alt r1 r2 => lang r1 w \/ lang r2 w
  | Rep lo hi p => (lo <= String.length w <= hi)%nat /\ all_in p w
  | Star p => all_in p w
  end.

End Re.

(** ** [datetime] and [timedelta] *)

Module Datetime.

Record datetime : Type := mk_datetime {
  ordinal : Z;        (* date.toordinal(): 1 is 0001-01-01 *)
  hour : Z;
  minute : Z;
  second : Z;
  microsecond : Z
}.

Record timedelta : Type := mk_timedelta {
  days : Z;
  seconds : Z;
  microseconds : Z
}.

(** [date.max.toordinal()], that is 9999-12-31. *)
Definition MAXORDINAL : Z := 3652059.

(** [date(1900, 1, 1).toordinal()]: the date [strptime] gives to a string
    that carries no date. *)
Definition ORDINAL_1900 : Z := 693596.

(** [timedelta(days=, hours=, minutes=, seconds=, microseconds=)]: the
    constructor normalises to [0 <= seconds < 86400] and
    [0 <= microseconds < 1000000]. *)
Definition timedelta_new (d h m s us : Z) : timedelta :=
  let total := (((d * 24 + h) * 60 + m) * 60 + s) * 1000000 + us in
  {| days := total / 86400000000;
     seconds := (total mod 86400000000) / 1000000;
     microseconds := total mod 1000000 |}.

(** [timedelta.__add__] *)
Definition timedelta_add (a b : timedelta) : timedelta :=
  timedelta_new (days a + days b) 0 0 (seconds a + seconds b)
                (microseconds a + microseconds b).

(** [datetime.__add__(self, other)] *)
Definition add (self : datetime) (other : timedelta) : result datetime :=
  let delta :=
    timedelta_add
      (timedelta_new (ordinal self) (hour self) (minute self) (second self)
                     (microsecond self))
      other in
  let hour := seconds delta / 3600 in
  let rem := seconds delta mod 3600 in
  let minute := rem / 60 in
  let second := rem mod 60 in
  if (0 <? days delta) && (days delta <=? MAXORDINAL)
  then OK (mk_datetime (days delta) hour minute second (microseconds delta))
  else Raise OverflowError.

(** Comparison is the lexicographic one on the fields. *)
Definition lex (c1 c2 : comparison) : comparison :=
  match c1 with Eq => c2 | _ => c1 end.

Definition cmp (a b : datetime) : comparison :=
  lex (ordinal a ?= ordinal b)
   (lex (hour a ?= hour b)
     (lex (minute a ?= minute b)
       (lex (second a ?= second b) (microsecond a ?= microsecond b)))).

Definition lt (a b : datetime) : bool :=
  match cmp a b with Lt => true | _ => false end.

Definition le (a b : datetime) : bool :=
  match cmp a b with Gt => false | _ => true end.

(** [dt.replace(year=today.year, month=today.month, day=today.day)] *)
Definition replace_date (dt : datetime) (today : Z) : datetime :=
  mk_datetime today (hour dt) (minute dt) (second dt) (microsecond dt).

(** Microseconds since the start of day 0: the scale on which durations
    are measured in the statements below. *)
Definition to_us (dt : datetime) : Z :=
  (((ordinal dt * 24 + hour dt) * 60 + minute dt) * 60 + second dt) * 1000000
  + microsecond dt.

(** [int(s)] on a string of decimal digits. *)
Definition int (s : string) : Z :=
  fold_left (fun acc c => acc * 10 + (Z.of_N (N_of_ascii c) - 48))
            (list_ascii_of_string s) 0.

(** The pieces of the pattern that [_strptime] builds for ["%I:%M%p"] and
    compiles with [re.IGNORECASE]:
    [(?P<I>1[0-2]|0[1-9]|[1-9]):(?P<M>[0-5]\d|\d)(?P<p>am|pm)]. *)
Definition re_I : Re.regex :=
  Re.Alt (Re.Seq (Re.chr "1") (Re.range "0" "2"))
         (Re.Alt (Re.Seq (Re.chr "0") (Re.range "1" "9")) (Re.range "1" "9")).

Definition re_M : Re.regex :=
  Re.Alt (Re.Seq (Re.range "0" "5") Re.d) Re.d.

Definition re_p : Re.regex :=
  Re.Alt (Re.Seq (Re.ichr "a") (Re.ichr "m")) (Re.Seq (Re.ichr "p") (Re.ichr "m")).

(** The match of the whole pattern; the result gives the input left after
    each of the groups I, the colon, M and p. *)
Definition strptime_match (data_string : string)
  : option (string * string * string * string) :=
  Re.match_k re_I data_string (fun s1 =>
  Re.match_k (Re.chr ":") s1 (fun s2 =>
  Re.match_k re_M s2 (fun s3 =>
  Re.match_k re_p s3 (fun s4 => Some (s1, s2, s3, s4))))).

(** [datetime.datetime.strptime(data_string, "%I:%M%p")] *)
Definition strptime (data_string : string) : result datetime :=
  match strptime_match data_string with
  | None => Raise (ValueError_strptime data_string)
  | Some (s1, s2, s3, s4) =>
      match s4 with
      | String _ _ => Raise (ValueError_unconverted s4)
      | EmptyString =>
          let hour := int (Re.consumed data_string s1) in
          let ampm := PyStr.lower (Re.consumed s3 s4) in
          let hour :=
            if String.eqb ampm "am" then (if hour =? 12 then 0 else hour)
            else if String.eqb ampm "pm" then (if hour =? 12 then hour else hour + 12)
            else hour in
          let minute := int (Re.consumed s2 s3) in
          OK (mk_datetime ORDINAL_1900 hour minute 0 0)
      end
  end.

End Datetime.

(** ** The time range resolver *)

(** The pattern of [parse_time_range]: [\d{1,2}:\d{2}\s*(?:am|pm)]. *)
Definition time_re : Re.regex :=
  Re.Seq (Re.Rep 1 2 PyStr.isdigit)
  (Re.Seq (Re.chr ":")
  (Re.Seq (Re.Rep 2 2 PyStr.isdigit)
  (Re.Seq (Re.Star PyStr.isspace)
          (Re.Alt (Re.Seq (Re.chr "a") (Re.chr "m"))
                  (Re.Seq (Re.chr "p") (Re.chr "m")))))).

(** [full_times]: the clock tokens found in the label. *)
Definition full_times (time_str : string) : list string :=
  Re.findall time_re (PyStr.lower time_str).

(** The local function [to_dt]; [today] is the ordinal of the current date. *)
Definition to_dt (today : Z) (t : string) : result Datetime.datetime :=
  dt <- Datetime.strptime (PyStr.strip t) ;;
  ret (Datetime.replace_date dt today).

(** [parse_time_range(time_str)], run on the day [today]. *)
Definition parse_time_range (today : Z) (time_str : string)
  : result (Datetime.datetime * Datetime.datetime) :=
  let full_times := full_times time_str in
  if (List.length full_times =? 1)%nat then
    t0 <- PyList.getitem full_times 0 ;;
    start_dt <- to_dt today t0 ;;
    end_dt <- Datetime.add start_dt (Datetime.timedelta_new 0 1 0 0 0) ;;
    ret (start_dt, end_dt)
  else if (2 <=? List.length full_times)%nat then
    t0 <- PyList.getitem full_times 0 ;;
    start_dt <- to_dt today t0 ;;
    t1 <- PyList.getitem full_times 1 ;;
    end_dt <- to_dt today t1 ;;
    end_dt <- (if Datetime.le end_dt start_dt
               then Datetime.add end_dt (Datetime.timedelta_new 1 0 0 0 0)
               else ret end_dt) ;;
    ret (start_dt, end_dt)
  else
    Raise (ValueError_no_time time_str).

(** ** The rendered page, the clock and the files *)

(** An [<a>] element inside a [.fc-timeline-event-harness]; its [title]
    attribute may be absent. *)
Record anchor : Type := mk_anchor { title_attribute : option string }.

(** What the two selectors of [fetch_single_eid] see of the rendered page,
    by resource identifier: the anchors inside the resource's
    [td.fc-timeline-lane] cell, in document order, when that cell exists;
    and the text of [.fc-cell-text] inside its [td.fc-datagrid-cell], when
    that element exists. *)
Record page : Type := mk_page {
  timeline_lane : string -> option (list anchor);
  datagrid_cell_text : string -> option string
}.

(** One entry of the published collection: the dict with the keys
    ["eid"], ["Name"], ["time"] and ["status"]. *)
Record event : Type := mk_event {
  eid : string;
  Name : string;
  time : string;
  status : string
}.

(** What becomes of [with open(filename, "w") as f: ...write the text...]. *)
Inductive write_outcome : Type :=
| Written
    (* the file is opened, the whole text is written, the file is closed *)
| OpenFails (x : exn)
    (* [open] raises: the file is not touched *)
| WriteFails (x : exn) (remains : string).
    (* the file is opened, which empties it, and a write or the closing
       raises: [remains] is the text that the file holds afterwards *)

Record env : Type := mk_env {
  clock : nat -> Datetime.datetime;
      (* the successive values of datetime.datetime.now() *)
  eid_file : option string;
      (* the text of codeList4Shapiro2ndFloor.txt, when the file exists *)
  browser : result page;
      (* launching the browser and loading the calendar: the rendered
         page, or the exception raised on the way *)
  disk : string -> string -> write_outcome
      (* what becomes of writing a text to a file, by file name and text *)
}.

Record state : Type := mk_state {
  reads : nat;
      (* how many times the clock has been read *)
  files : string -> option string
      (* the text of the files, by file name *)
}.

(** Computations that read the environment, change the state and may
    raise; the state reached when an exception is raised is kept. *)
Definition M (A : Type) : Type := env -> state -> result A * state.

Definition M_ret {A : Type} (a : A) : M A := fun _ st => (OK a, st).

Definition M_bind {A B : Type} (c : M A) (k : A -> M B) : M B :=
  fun e st =>
    match c e st with
    | (OK a, st') => k a e st'
    | (Raise x, st') => (Raise x, st')
    end.

#[global] Instance Monad_M : Monad M :=
  {| ret := @M_ret; bind := @M_bind |}.

Definition lift {A : Type} (r : result A) : M A := fun _ st => (r, st).

(** [try: c except Exception as x: h x] *)
Definition try_except {A : Type} (c : M A) (h : exn -> M A) : M A :=
  fun e st =>
    match c e st with
    | (OK a, st') => (OK a, st')
    | (Raise x, st') => h x e st'
    end.

(** [datetime.datetime.now()] *)
Definition datetime_now : M Datetime.datetime :=
  fun e st => (OK (clock e (reads st)), mk_state (S (reads st)) (files st)).

(** [parse_time_range(time_str)] as the scraper calls it: the current date
    is read from the clock at each call. *)
Definition parse_time_range_now (time_str : string)
  : M (Datetime.datetime * Datetime.datetime) :=
  now <- datetime_now ;;
  lift (parse_time_range (Datetime.ordinal now) time_str).

(** ** The resource scraper *)

(** The selector [a[title]] keeps the anchors that have the attribute. *)
Definition has_title (a : anchor) : bool :=
  match title_attribute a with Some _ => true | None => false end.

(** The body of [for e in events] of [fetch_single_eid]. *)
Fixpoint for_events (eid room_name_text : string) (now : Datetime.datetime)
  (events : list anchor) (results : list event) : M (list event) :=
  match events with
  | [] => ret results
  | e :: events' =>
      match title_attribute e with
      | None | Some EmptyString =>
          for_events eid room_name_text now events' results
      | Some title =>
          ' (time_str, status_str, _) <- lift (parse_title title) ;;
          ' (start_time, _) <- parse_time_range_now time_str ;;
          if Datetime.lt start_time now
          then for_events eid room_name_text now events' results
          else for_events eid room_name_text now events'
                 (results ++ [mk_event eid room_name_text time_str status_str])
      end
  end.

Definition room_name_text (pg : page) (eid : string) : string :=
  match datagrid_cell_text pg eid with
  | Some text => text
  | None => "Unknown"
  end.

(** [fetch_single_eid(page, eid)] *)
Definition fetch_single_eid (pg : page) (eid : string) : M (list event) :=
  match timeline_lane pg eid with
  | None => ret []
  | Some td =>
      let events := filter has_title td in
      now <- datetime_now ;;
      for_events eid (room_name_text pg eid) now events []
  end.

(** ** The batch *)

(** The lines of a text file, without their terminators: a line ends at a
    line feed or a carriage return.  (A CR LF pair gives one more, empty,
    line than Python's universal newlines; [fetch_all] drops empty lines.) *)
Fixpoint file_lines (content : string) : list string :=
  match content with
  | EmptyString => [EmptyString]
  | String c content' =>
      if (Ascii.eqb c "010" || Ascii.eqb c "013")%bool
      then EmptyString :: file_lines content'
      else match file_lines content' with
           | line :: lines => String c line :: lines
           | [] => [String c EmptyString]
           end
  end.

Definition nonempty (s : string) : bool :=
  match s with EmptyString => false | String _ _ => true end.

Definition eid_filename : string := "codeList4Shapiro2ndFloor.txt".

(** [[line.strip() for line in f if line.strip()]] *)
Definition read_eids : M (list string) :=
  fun e st =>
    match eid_file e with
    | None => (Raise (FileNotFoundError eid_filename), st)
    | Some content =>
        (OK (map PyStr.strip
               (filter (fun line => nonempty (PyStr.strip line)) (file_lines content))),
         st)
    end.

(** Launching the browser, opening the page, loading and waiting. *)
Definition open_page : M page := fun e st => (browser e, st).

(** The body of [for eid in eids] of [fetch_all]. *)
Fixpoint for_eids (pg : page) (eids : list string) (all_results : list event)
  : M (list event) :=
  match eids with
  | [] => ret all_results
  | eid :: eids' =>
      data <- fetch_single_eid pg eid ;;
      for_eids pg eids' (all_results ++ data)
  end.

(** [fetch_all()] *)
Definition fetch_all : M (list event) :=
  eids <- read_eids ;;
  pg <- open_page ;;
  for_eids pg eids [].

(** ** The text of [record.json]

    [json_dump data] is the text that
    [json.dump(data, f, indent=4, ensure_ascii=False)] writes for a list
    of entries (before the file encodes it in UTF-8). *)

Module Json.

Definition quote : ascii := "034".
Definition backslash : ascii := "092".

Definition hex_digit (n : N) : ascii :=
  if (n <? 10)%N then ascii_of_N (48 + n) else ascii_of_N (87 + n).

(** [ESCAPE_DCT] of [json.encoder]: the quote, the backslash and the
    control characters are escaped, and with [ensure_ascii=False] nothing
    else is. *)
Definition escape (c : ascii) : string :=
  let n := N_of_ascii c in
  if Ascii.eqb c quote then String backslash (String quote EmptyString)
  else if Ascii.eqb c backslash then String backslash (String backslash EmptyString)
  else if (n =? 8)%N then String backslash "b"
  else if (n =? 12)%N then String backslash "f"
  else if (n =? 10)%N then String backslash "n"
  else if (n =? 13)%N then String backslash "r"
  else if (n =? 9)%N then String backslash "t"
  else if (n <? 32)%N
       then String backslash
              (String "u" (String "0" (String "0"
                 (String (hex_digit (n / 16)) (String (hex_digit (n mod 16)) EmptyString)))))
  else String c EmptyString.

(** The inside of an encoded string, followed by [rest]. *)
Fixpoint escaped (s rest : string) : string :=
  match s with
  | EmptyString => rest
  | String c s' => String.append (escape c) (escaped s' rest)
  end.

(** [encode_basestring(s)], followed by [rest]. *)
Definition encode_basestring (s rest : string) : string :=
  String quote (escaped s (String quote rest)).

(** A line feed and [4 * level] spaces. *)
Definition newline_indent (level : nat) : string :=
  String "010" (string_of_list_ascii (repeat " "%char (4 * level))).

(** One member of an object: what comes before it, its key, its value. *)
Definition member (lead key value rest : string) : string :=
  String.append lead
    (String.append (newline_indent 2)
       (encode_basestring key (String.append ": " (encode_basestring value rest)))).

(** One entry, followed by [rest]. *)
Definition dump_event (ev : event) (rest : string) : string :=
  member "{" "eid" (eid ev)
    (member "," "Name" (Name ev)
       (member "," "time" (time ev)
          (member "," "status" (status ev)
             (String.append (newline_indent 1) (String "}" rest))))).

(** The entries of a list, separated, followed by [rest]. *)
Fixpoint dump_items (data : list event) (rest : string) : string :=
  match data with
  | [] => rest
  | ev :: data' =>
      dump_event ev
        (match data' with
         | [] => rest
         | _ :: _ =>
             String "," (String.append (newline_indent 1) (dump_items data' rest))
         end)
  end.

Definition json_dump (data : list event) : string :=
  match data with
  | [] => "[]"
  | _ :: _ =>
      String "[" (String.append (newline_indent 1)
                    (dump_items data (String.append (newline_indent 0) "]")))
  end.

(** Reading back the first character of the inside of an encoded string. *)
Definition hex_value (c : ascii) : option N :=
  let n := N_of_ascii c in
  if ((48 <=? n) && (n <=? 57))%N then Some (n - 48)%N
  else if ((97 <=? n) && (n <=? 102))%N then Some (n - 87)%N
  else None.

Definition unescape_first (s : string) : option (ascii * string) :=
  match s with
  | EmptyString => None
  | String c r =>
      if Ascii.eqb c quote then None
      else if Ascii.eqb c backslash then
        match r with
        | EmptyString => None
        | String k r' =>
            if Ascii.eqb k quote then Some (quote, r')
            else if Ascii.eqb k backslash then Some (backslash, r')
            else if Ascii.eqb k "b" then Some ("008"%char, r')
            else if Ascii.eqb k "f" then Some ("012"%char, r')
            else if Ascii.eqb k "n" then Some ("010"%char, r')
            else if Ascii.eqb k "r" then Some ("013"%char, r')
            else if Ascii.eqb k "t" then Some ("009"%char, r')
            else if Ascii.eqb k "u" then
              match r' with
              | String _ (String _ (String x (String y r''))) =>
                  match hex_value x, hex_value y with
                  | Some h, Some l => Some (ascii_of_N (16 * h + l), r'')
                  | _, _ => None
                  end
              | _ => None
              end
            else None
        end
      else Some (c, r)
  end.

End Json.

(** [files[filename] = text] *)
Definition set_file (filename text : string) (st : state) : state :=
  mk_state (reads st)
    (fun f => if String.eqb f filename then Some text else files st f).

(** [save_json(data, filename)]: the file is opened for writing and the
    text of [json.dump] is written to it.  When [open] raises nothing has
    been touched; when a write or the closing raises, the file has already
    lost what it held and keeps what reached it. *)
Definition save_json (data : list event) (filename : string) : M unit :=
  fun e st =>
    match disk e filename (Json.json_dump data) with
    | Written => (OK tt, set_file filename (Json.json_dump data) st)
    | OpenFails x => (Raise x, st)
    | WriteFails x remains => (Raise x, set_file filename remains st)
    end.

(** ** The trigger endpoint *)

Inductive payload : Type :=
| Success (count : nat)        (* {"status": "success", "count": count} *)
| Error (message : exn).       (* {"status": "error", "message": str(e)} *)

Record response : Type := mk_response {
  status_code : Z;
  json : payload
}.

(** [jsonify(...)]: a response with the default status code. *)
Definition jsonify (p : payload) : response := mk_response 200 p.

(** [os.path.join(STATIC_DIR, "record.json")] *)
Definition record_json : string := "static/record.json".

(** [run_fetch()] *)
Definition run_fetch : M response :=
  try_except
    (data <- fetch_all ;;
     save_json data record_json ;;
     ret (jsonify (Success (List.length data))))
    (fun e => ret (jsonify (Error e))).

(** ** Well-formed clock tokens

    The 12-hour clock texts that [strptime] reads with ["%I:%M%p"]: an hour
    from 1 to 12, written with or without a leading zero, a colon, two
    digits of minutes up to 59, and [am] or [pm] right after them. *)

Inductive meridiem : Type := AM | PM.

Definition meridiem_text (p : meridiem) : string :=
  match p with AM => "am" | PM => "pm" end.

(** The hour of the day that an hour of the 12-hour clock stands for. *)
Definition hour24 (h12 : Z) (p : meridiem) : Z :=
  match p with
  | AM => if h12 =? 12 then 0 else h12
  | PM => if h12 =? 12 then 12 else h12 + 12
  end.

Definition digit_char (n : Z) : ascii := ascii_of_N (Z.to_N (48 + n)).

Definition two_digits (n : Z) : string :=
  String (digit_char (n / 10)) (String (digit_char (n mod 10)) EmptyString).

Definition clock_text (pad : bool) (h12 m : Z) (p : meridiem) : string :=
  String.append
    (if (pad || (10 <=? h12))%bool then two_digits h12
     else String (digit_char h12) EmptyString)
    (String ":" (String.append (two_digits m) (meridiem_text p))).

(** [tok] is a well-formed clock token that reads as [h]:[m] on the
    24-hour clock. *)
Definition clock_token (tok : string) (h m : Z) : Prop :=
  exists pad h12 p,
    1 <= h12 <= 12 /\ 0 <= m <= 59
    /\ tok = clock_text pad h12 m p /\ h = hour24 h12 p.

(** A datetime of the day [today] with a time of day to the minute. *)
Definition on_day (today : Z) (dt : Datetime.datetime) : Prop :=
  Datetime.ordinal dt = today
  /\ 0 <= Datetime.hour dt <= 23 /\ 0 <= Datetime.minute dt <= 59
  /\ Datetime.second dt = 0 /\ Datetime.microsecond dt = 0.

(** The length of a duration in microseconds. *)
Definition timedelta_us (td : Datetime.timedelta) : Z :=
  (Datetime.days td * 86400 + Datetime.seconds td) * 1000000 + Datetime.microseconds td.

(** A time of day within its ranges. *)
Definition time_in_range (dt : Datetime.datetime) : Prop :=
  0 <= Datetime.hour dt <= 23 /\ 0 <= Datetime.minute dt <= 59
  /\ 0 <= Datetime.second dt <= 59 /\ 0 <= Datetime.microsecond dt <= 999999.

(** [strptime] reads the clock text of [h12]:[m] as the time of day it
    stands for; a check that runs. *)
Definition strptime_reads (pad : bool) (h12 m : Z) (p : meridiem) : bool :=
  match Datetime.strptime (PyStr.strip (clock_text pad h12 m p)) with
  | OK dt =>
      (Datetime.ordinal dt =? Datetime.ORDINAL_1900)
      && (Datetime.hour dt =? hour24 h12 p) && (Datetime.minute dt =? m)
      && (Datetime.second dt =? 0) && (Datetime.microsecond dt =? 0)
  | Raise _ => false
  end.

Definition clock_hours : list Z := map Z.of_nat (seq 1 12).
Definition clock_minutes : list Z := map Z.of_nat (seq 0 60).

(** ** Titles seen by the scraper *)

(** The titles that the loop of [fetch_single_eid] goes on to parse: the
    ones that are present and not empty, in document order. *)
Definition titles (td : list anchor) : list string :=
  flat_map (fun a => match title_attribute a with
                     | Some (String c s) => [String c s]
                     | _ => []
                     end) td.

(** What a title contributes when it is parsed at the [k]-th reading of
    the clock: its time label, its status and its resolved start. *)
Definition resolves (e : env) (k : nat) (title : string)
  (x : string * string * Datetime.datetime) : Prop :=
  let '(time_str, status_str, start) := x in
  exists room end_dt,
    parse_title title = OK (time_str, status_str, room)
    /\ parse_time_range (Datetime.ordinal (clock e k)) time_str = OK (start, end_dt).

(** The titles of a cell are parsed at successive readings of the clock. *)
Inductive resolves_from (e : env) : nat -> list string ->
  list (string * string * Datetime.datetime) -> Prop :=
| resolves_nil k : resolves_from e k [] []
| resolves_cons k title x ts xs :
    resolves e k title x ->
    resolves_from e (S k) ts xs ->
    resolves_from e k (title :: ts) (x :: xs).

(** The entry published for a resolved title, and the test that keeps
    it: its start is not before [now]. *)
Definition event_of (eid room_name_text : string)
  (x : string * string * Datetime.datetime) : event :=
  mk_event eid room_name_text (fst (fst x)) (snd (fst x)).

Definition upcoming (now : Datetime.datetime)
  (x : string * string * Datetime.datetime) : bool :=
  negb (Datetime.lt (snd x) now).

(** An anchor whose title is missing or empty. *)
Definition untitled (a : anchor) : Prop :=
  title_attribute a = None \/ title_attribute a = Some EmptyString.

(** The state after one more reading of the clock. *)
Definition tick (st : state) : state := mk_state (S (reads st)) (files st).

(** A batch that goes through: the resources of the list are scraped one
    after the other, each from the state the previous one left. *)
Inductive batch_from (pg : page) (e : env) :
  state -> list string -> list (list event) -> state -> Prop :=
| batch_nil st : batch_from pg e st [] [] st
| batch_cons st eid data st1 eids rest st' :
    fetch_single_eid pg eid e st = (OK data, st1) ->
    batch_from pg e st1 eids rest st' ->
    batch_from pg e st (eid :: eids) (data :: rest) st'.

(** The part of a title that reaches the output. *)
Definition label_of (title : string) : result (string * string) :=
  ' (time_str, status_str, _) <- parse_title title ;;
  ret (time_str, status_str).

(** ** Sample data

    A rendered page with two resources, as seen at half past noon of
    2025-11-26; the resource ["1002"] has a label that carries no time. *)

Definition sample_now : Datetime.datetime :=
  Datetime.mk_datetime 739581 12 30 15 250000.

Definition sample_lane : list anchor :=
  [ mk_anchor (Some "8:00am - 9:00am - Available");
    mk_anchor None;
    mk_anchor (Some "1:00pm - 2:00pm - Available");
    mk_anchor (Some EmptyString);
    mk_anchor (Some "11:00pm - 1:00am - Room 2121 - Unavailable") ].

Definition sample_page : page :=
  mk_page
    (fun eid =>
       if String.eqb eid "1001" then Some sample_lane
       else if String.eqb eid "1002" then Some [mk_anchor (Some "Closed - All day")]
       else None)
    (fun eid => if String.eqb eid "1001" then Some "2121" else None).

Definition sample_env (eids : string) : env :=
  mk_env (fun _ => sample_now) (Some eids) (OK sample_page) (fun _ _ => Written).

Definition sample_state : state :=
  mk_state 0 (fun f => if String.eqb f record_json
                       then Some (Json.json_dump [mk_event "0" "old" "9:00am" "Available"])
                       else None).

(** A disk that fills up: of any text, the first 120 characters reach the
    file, and the write raises. *)
Definition sample_full_disk : string -> string -> write_outcome :=
  fun _ text =>
    WriteFails (OSError "[Errno 28] No space left on device") (substring 0 120 text).

(** The identifier file with the two resources, one per line. *)
Definition sample_eids : string :=
  String.append "1001" (String "010" (String.append "1002" (String "010" EmptyString))).

(** ** Auxiliary notions for the further properties *)

(** [s[n:]] *)
Fixpoint string_skip (n : nat) (s : string) : string :=
  match n, s with
  | O, _ => s
  | S k, String _ s' => string_skip k s'
  | S _, EmptyString => EmptyString
  end.

(** [sep in s]: [sep] occurs somewhere in [s]. *)
Fixpoint contains (sep s : string) : bool :=
  match s with
  | EmptyString => String.prefix sep s
  | String _ s' => String.prefix sep s || contains sep s'
  end.

(** The characters of ASCII.  Python's [\d] and [int] also read the
    decimal digits of other scripts, all of them beyond code point 255:
    what is said below of the digits of a token is said of ASCII texts. *)
Definition is_ascii (c : ascii) : bool := (N_of_ascii c <? 128)%N.

(** The text of a token without white space: one or two digits of hour,
    a colon, two digits of minutes and the meridiem. *)
Definition token_text (d1 : Z) (d2 : option Z) (a b : Z) (p : meridiem) : string :=
  String (digit_char d1)
    (String.append
       (match d2 with Some d => String (digit_char d) EmptyString | None => EmptyString end)
       (String ":" (String (digit_char a) (String (digit_char b) (meridiem_text p))))).

(** Whenever [strptime] accepts such a text, the text is the clock text of
    an hour from 1 to 12 and of minutes up to 59; a check that runs. *)
Definition token_check (d1 : Z) (d2 : option Z) (a b : Z) (p : meridiem) : bool :=
  match Datetime.strptime (PyStr.strip (token_text d1 d2 a b p)) with
  | Raise _ => true
  | OK _ =>
      let h12 := match d2 with Some d => d1 * 10 + d | None => d1 end in
      let m := a * 10 + b in
      (1 <=? h12) && (h12 <=? 12) && (m <=? 59)
      && String.eqb (token_text d1 d2 a b p)
           (clock_text (match d2 with Some _ => true | None => false end) h12 m p)
  end.

Definition decimal_digits : list Z := map Z.of_nat (seq 0 10).

(** What holds of every clock text: it is in lower case and stripped, the
    separator of titles does not occur in it nor across its end, and the
    pattern finds it, whole, as the one token of itself; a check that
    runs. *)
Definition clock_text_check (pad : bool) (h12 m : Z) (p : meridiem) : bool :=
  let t := clock_text pad h12 m p in
  String.eqb (PyStr.lower t) t && String.eqb (PyStr.strip t) t
  && negb (contains " - " (String.append t " -"))
  && match full_times t with [x] => String.eqb x t | _ => false end.

(* ================================================================== *)
(** * Properties *)
(* ================================================================== *)

(** Running the binds of the error monad in a hypothesis. *)
Ltac run_result H := cbn [bind Monad_result ret result_bind] in H.

(** ** Lists and strings *)

Lemma split_from_not_nil sep s : forall skip, PyStr.split_from sep skip s <> [].
Proof.
  induction s as [|c s IH]; intros skip; cbn [PyStr.split_from].
  - discriminate.
  - destruct skip as [|k]; [|apply IH].
    destruct (String.prefix sep (String c s)); [discriminate|].
    destruct (PyStr.split_from sep 0 s); discriminate.
Qed.

Lemma getitem_last {A : Type} (l : list A) (dflt : A) :
  l <> [] -> PyList.getitem l (-1) = OK (last l dflt).
Proof.
  intros Hl. unfold PyList.getitem.
  destruct (exists_last Hl) as [l' [a ->]].
  rewrite last_last, length_app. simpl List.length.
  replace (-1 <? 0) with true by reflexivity.
  replace ((0 <=? -1 + Z.of_nat (List.length l' + 1))
           && (-1 + Z.of_nat (List.length l' + 1) <? Z.of_nat (List.length l' + 1)))%bool
    with true by (symmetry; apply andb_true_iff; split; [apply Z.leb_le|apply Z.ltb_lt]; lia).
  replace (Z.to_nat (-1 + Z.of_nat (List.length l' + 1))) with (List.length l') by lia.
  rewrite nth_error_app2, Nat.sub_diag by lia. reflexivity.
Qed.

Lemma getitem_nth {A : Type} (l : list A) (i : nat) (dflt : A) :
  (i < List.length l)%nat -> PyList.getitem l (Z.of_nat i) = OK (nth i l dflt).
Proof.
  intros Hi. unfold PyList.getitem.
  replace (Z.of_nat i <? 0) with false by (symmetry; apply Z.ltb_ge; lia).
  replace ((0 <=? Z.of_nat i) && (Z.of_nat i <? Z.of_nat (List.length l)))%bool
    with true by (symmetry; apply andb_true_iff; split; [apply Z.leb_le|apply Z.ltb_lt]; lia).
  rewrite Nat2Z.id.
  rewrite (nth_error_nth' l dflt Hi). reflexivity.
Qed.

Lemma getitem_second_last {A : Type} (l : list A) (dflt : A) :
  (2 <= List.length l)%nat ->
  PyList.getitem l (-2) = OK (nth (List.length l - 2) l dflt).
Proof.
  intros Hl. unfold PyList.getitem.
  replace (-2 <? 0) with true by reflexivity.
  replace ((0 <=? -2 + Z.of_nat (List.length l))
           && (-2 + Z.of_nat (List.length l) <? Z.of_nat (List.length l)))%bool
    with true by (symmetry; apply andb_true_iff; split; [apply Z.leb_le|apply Z.ltb_lt]; lia).
  replace (Z.to_nat (-2 + Z.of_nat (List.length l))) with (List.length l - 2)%nat by lia.
  rewrite (nth_error_nth' l dflt) by lia. reflexivity.
Qed.

Lemma slice_to_minus_two {A : Type} (l : list A) :
  PyList.slice_to l (-2) = firstn (List.length l - 2) l.
Proof.
  unfold PyList.slice_to. replace (-2 <? 0) with true by reflexivity.
  f_equal. lia.
Qed.

Lemma last_map {A B : Type} (f : A -> B) (l : list A) (dflt : A) :
  last (map f l) (f dflt) = f (last l dflt).
Proof.
  induction l as [|a [|b l] IH]; try reflexivity.
  change (last (map f (b :: l)) (f dflt) = f (last (b :: l) dflt)). exact IH.
Qed.

(** ** The title parser *)

(** What [parse_title] returns, from the segments of the title. *)
Lemma parse_title_eq title :
  let segs := PyStr.split " - " title in
  parse_title title =
  if (2 <? List.length segs)%nat
  then OK (PyStr.join " - " (map PyStr.strip (firstn (List.length segs - 2) segs)),
           PyStr.strip (last segs EmptyString),
           PyStr.strip (nth (List.length segs - 2) segs EmptyString))
  else OK (PyStr.strip (hd EmptyString segs),
           PyStr.strip (last segs EmptyString), "Unknown").
Proof.
  intros segs. unfold parse_title. fold segs.
  assert (Hne : segs <> []) by apply split_from_not_nil.
  assert (Hne' : map PyStr.strip segs <> []).
  { destruct segs; [contradiction|discriminate]. }
  cbn [bind Monad_result ret].
  rewrite (getitem_last _ (PyStr.strip EmptyString) Hne'), last_map.
  cbn [result_bind]. rewrite length_map.
  destruct (2 <? List.length segs)%nat eqn:Hlen.
  - apply Nat.ltb_lt in Hlen.
    rewrite (getitem_second_last (map PyStr.strip segs) (PyStr.strip EmptyString))
      by (rewrite length_map; lia).
    cbn [result_bind]. rewrite slice_to_minus_two, length_map, firstn_map, map_nth.
    reflexivity.
  - change 0 with (Z.of_nat 0).
    rewrite (getitem_nth (map PyStr.strip segs) 0 (PyStr.strip EmptyString))
      by (rewrite length_map; destruct segs; [contradiction|simpl; lia]).
    cbn [result_bind]. destruct segs; [contradiction|reflexivity].
Qed.

(** C4 (as amended): [parse_title] splits the title on [" - "] and strips
    every segment of leading and trailing whitespace.  The stripped last
    segment is the status.  With more than two segments the room name is
    the stripped second-to-last segment and the time label is the stripped
    preceding segments joined with [" - "]; with two segments or fewer the
    room name is ["Unknown"] and the time label is the stripped first
    segment. *)
Theorem parse_title_segments title :
  let segs := PyStr.split " - " title in
  exists time_str status_str room_name,
    parse_title title = OK (time_str, status_str, room_name)
    /\ status_str = PyStr.strip (last segs EmptyString)
    /\ ((2 < List.length segs)%nat ->
        room_name = PyStr.strip (nth (List.length segs - 2) segs EmptyString)
        /\ time_str = PyStr.join " - "
                        (map PyStr.strip (firstn (List.length segs - 2) segs)))
    /\ ((List.length segs <= 2)%nat ->
        room_name = "Unknown" /\ time_str = PyStr.strip (hd EmptyString segs)).
Proof.
  intros segs. pose proof (parse_title_eq title) as H. cbv zeta in H. fold segs in H.
  destruct (2 <? List.length segs)%nat eqn:Hlen.
  - apply Nat.ltb_lt in Hlen.
    eexists _, _, _. split; [exact H|]. split; [reflexivity|]. split.
    + intros _. split; reflexivity.
    + intros Hle. lia.
  - apply Nat.ltb_ge in Hlen.
    eexists _, _, _. split; [exact H|]. split; [reflexivity|]. split.
    + intros Hlt. lia.
    + intros _. split; reflexivity.
Qed.

(** C4, as stated, fails where a segment has whitespace of its own around
    it: the room name returned is not the second-to-last segment exactly. *)
Lemma parse_title_room_not_exact :
  let title := "1:00pm -  Room 7  - Open" in
  let segs := PyStr.split " - " title in
  segs = ["1:00pm"; " Room 7 "; "Open"]
  /\ parse_title title = OK ("1:00pm", "Open", "Room 7")
  /\ ~ (exists time_str status_str,
          parse_title title
          = OK (time_str, status_str, nth (List.length segs - 2) segs EmptyString)).
Proof.
  cbv zeta. split; [reflexivity|]. split; [reflexivity|].
  intros [t [s H]]. vm_compute in H. discriminate H.
Qed.

(** C5: [parse_title] raises nothing: every title, the empty one included,
    gives a triple. *)
Theorem parse_title_total title :
  exists time_str status_str room_name,
    parse_title title = OK (time_str, status_str, room_name).
Proof.
  pose proof (parse_title_eq title) as H. cbv zeta in H.
  destruct (2 <? List.length (PyStr.split " - " title))%nat;
    eexists _, _, _; exact H.
Qed.

Example parse_title_range :
  parse_title "8:00am - 9:00am - Available" = OK ("8:00am", "Available", "9:00am").
Proof. reflexivity. Qed.

Example parse_title_dated :
  parse_title "8:00am Wednesday, November 26, 2025 - 2nd Floor - 2122"
  = OK ("8:00am Wednesday, November 26, 2025", "2122", "2nd Floor").
Proof. reflexivity. Qed.

Example parse_title_four :
  parse_title "11:00pm - 1:00am - Room 7 - Unavailable"
  = OK ("11:00pm - 1:00am", "Unavailable", "Room 7").
Proof. reflexivity. Qed.

Example parse_title_empty :
  parse_title EmptyString = OK (EmptyString, EmptyString, "Unknown").
Proof. reflexivity. Qed.

Example split_examples :
  PyStr.split " - " "a - - b" = ["a"; "- b"]
  /\ PyStr.split " - " " - " = [EmptyString; EmptyString]
  /\ PyStr.split " - " "a -  b  - c" = ["a"; " b "; "c"]
  /\ PyStr.split " - " "a - b - " = ["a"; "b"; EmptyString].
Proof. repeat split; reflexivity. Qed.

(** ** The matcher against the words of an expression *)

Lemma length_append (w rest : string) :
  String.length (String.append w rest) = (String.length w + String.length rest)%nat.
Proof. induction w as [|c w IH]; simpl; [reflexivity|now rewrite IH]. Qed.

Lemma substring_append (w rest : string) :
  String.substring 0 (String.length w) (String.append w rest) = w.
Proof. induction w as [|c w IH]; simpl; [now destruct rest|now rewrite IH]. Qed.

Lemma consumed_append (w rest : string) :
  Re.consumed (String.append w rest) rest = w.
Proof.
  unfold Re.consumed. rewrite length_append.
  replace (String.length w + String.length rest - String.length rest)%nat
    with (String.length w) by lia.
  apply substring_append.
Qed.

Lemma star_k_sound {A : Type} p (k : string -> option A) x :
  forall s, Re.star_k p s k = Some x ->
  exists w rest, s = String.append w rest /\ Re.all_in p w /\ k rest = Some x.
Proof.
  induction s as [|c s IH]; simpl; intros H.
  - exists EmptyString, EmptyString. simpl. auto.
  - destruct (p c) eqn:Hc.
    + destruct (Re.star_k p s k) as [y|] eqn:Hs.
      * injection H as ->. destruct (IH eq_refl) as [w [rest [-> [Hw Hk]]]].
        exists (String c w), rest. simpl. auto.
      * exists EmptyString, (String c s). simpl. auto.
    + exists EmptyString, (String c s). simpl. auto.
Qed.

Lemma rep_k_sound {A : Type} p (k : string -> option A) x :
  forall hi lo s, Re.rep_k p lo hi s k = Some x ->
  exists w rest,
    s = String.append w rest /\ Re.all_in p w
    /\ (lo <= String.length w <= hi)%nat /\ k rest = Some x.
Proof.
  assert (Hstop : forall lo hi s,
             match lo with O => k s | S _ => None end = Some x ->
             exists w rest,
               s = String.append w rest /\ Re.all_in p w
               /\ (lo <= String.length w <= hi)%nat /\ k rest = Some x).
  { intros lo hi s H. destruct lo; [|discriminate].
    exists EmptyString, s. simpl. repeat split; auto; lia. }
  induction hi as [|hi IH]; intros lo s H; simpl in H.
  - apply Hstop; exact H.
  - destruct s as [|c s]; [apply Hstop; exact H|].
    destruct (p c) eqn:Hc; [|apply Hstop; exact H].
    destruct (Re.rep_k p (Nat.pred lo) hi s k) as [y|] eqn:Hs; [|apply Hstop; exact H].
    injection H as ->. destruct (IH _ _ Hs) as [w [rest [-> [Hw [Hlen Hk]]]]].
    exists (String c w), rest. simpl. repeat split; auto; lia.
Qed.

(** Whatever the matcher accepts is a word of the expression followed by
    an input that the continuation accepts. *)
Lemma match_k_sound {A : Type} r :
  forall s (k : string -> option A) x,
    Re.match_k r s k = Some x ->
    exists w rest, s = String.append w rest /\ Re.lang r w /\ k rest = Some x.
Proof.
  induction r as [p|r1 IH1 r2 IH2|r1 IH1 r2 IH2|lo hi p|p]; intros s k x H; simpl in H.
  - destruct s as [|c s]; [discriminate|].
    destruct (p c) eqn:Hc; [|discriminate].
    exists (String c EmptyString), s. simpl. eauto.
  - destruct (IH1 _ _ _ H) as [w1 [rest1 [-> [Hw1 H2]]]].
    destruct (IH2 _ _ _ H2) as [w2 [rest [-> [Hw2 Hk]]]].
    exists (String.append w1 w2), rest. split; [|split; [simpl; eauto|exact Hk]].
    clear. induction w1 as [|c w1 IHw]; simpl; [reflexivity|now rewrite IHw].
  - destruct (Re.match_k r1 s k) as [y|] eqn:H1.
    + injection H as ->. destruct (IH1 _ _ _ H1) as [w [rest [-> [Hw Hk]]]].
      exists w, rest. simpl. auto.
    + destruct (IH2 _ _ _ H) as [w [rest [-> [Hw Hk]]]].
      exists w, rest. simpl. auto.
  - destruct (rep_k_sound _ _ _ _ _ _ H) as [w [rest [-> [Hw [Hlen Hk]]]]].
    exists w, rest. simpl. auto.
  - destruct (star_k_sound _ _ _ _ H) as [w [rest [-> [Hw Hk]]]].
    exists w, rest. simpl. auto.
Qed.

Lemma match_at_word r s rest :
  Re.match_at r s = Some rest ->
  exists w, s = String.append w rest /\ Re.lang r w.
Proof.
  unfold Re.match_at. intros H.
  apply match_k_sound in H as [w [rest' [-> [Hw E]]]]. injection E as ->. eauto.
Qed.

(** Every text returned by [findall] is a word of the pattern. *)
Lemma findall_words r :
  forall s skip, Forall (Re.lang r) (Re.findall_from r skip s).
Proof.
  induction s as [|c s IH]; intros skip; cbn [Re.findall_from]; [constructor|].
  destruct skip as [|k]; [|apply IH].
  destruct (Re.match_at r (String c s)) as [rest|] eqn:Hm; [|apply IH].
  constructor; [|apply IH].
  apply match_at_word in Hm as [w [E Hw]]. rewrite E, consumed_append. exact Hw.
Qed.

(** ** [strptime] *)

Lemma range_bounds a b x :
  Re.lang (Re.range a b) x ->
  exists c, x = String c EmptyString
            /\ (N_of_ascii a <= N_of_ascii c <= N_of_ascii b)%N.
Proof.
  intros [c [-> H]]. exists c. split; [reflexivity|].
  apply andb_true_iff in H as [H1 H2].
  apply N.leb_le in H1, H2. split; assumption.
Qed.

Lemma chr_word c x : Re.lang (Re.chr c) x -> x = String c EmptyString.
Proof.
  intros [c' [-> H]]. apply Ascii.eqb_eq in H. now subst.
Qed.

Lemma digit_bounds x :
  Re.lang Re.d x ->
  exists c, x = String c EmptyString /\ (48 <= N_of_ascii c <= 57)%N.
Proof.
  intros [c [-> H]]. exists c. split; [reflexivity|].
  unfold PyStr.isdigit in H. apply andb_true_iff in H as [H1 H2].
  apply N.leb_le in H1, H2. split; assumption.
Qed.

Lemma int_one c : Datetime.int (String c EmptyString) = Z.of_N (N_of_ascii c) - 48.
Proof. reflexivity. Qed.

Lemma int_two c1 c2 :
  Datetime.int (String c1 (String c2 EmptyString))
  = (Z.of_N (N_of_ascii c1) - 48) * 10 + (Z.of_N (N_of_ascii c2) - 48).
Proof. reflexivity. Qed.

Lemma re_I_hour w : Re.lang Datetime.re_I w -> 1 <= Datetime.int w <= 12.
Proof.
  intros [H|[H|H]].
  - destruct H as [w1 [w2 [-> [H1 H2]]]].
    apply chr_word in H1 as ->. apply range_bounds in H2 as [c [-> Hc]].
    change (String.append "1" (String c EmptyString))
      with (String "1" (String c EmptyString)).
    rewrite int_two. change (N_of_ascii "0") with 48%N in Hc.
    change (N_of_ascii "2") with 50%N in Hc. change (N_of_ascii "1") with 49%N. lia.
  - destruct H as [w1 [w2 [-> [H1 H2]]]].
    apply chr_word in H1 as ->. apply range_bounds in H2 as [c [-> Hc]].
    change (String.append "0" (String c EmptyString))
      with (String "0" (String c EmptyString)).
    rewrite int_two. change (N_of_ascii "1") with 49%N in Hc.
    change (N_of_ascii "9") with 57%N in Hc. change (N_of_ascii "0") with 48%N. lia.
  - apply range_bounds in H as [c [-> Hc]]. rewrite int_one.
    change (N_of_ascii "1") with 49%N in Hc.
    change (N_of_ascii "9") with 57%N in Hc. lia.
Qed.

Lemma re_M_minute w : Re.lang Datetime.re_M w -> 0 <= Datetime.int w <= 59.
Proof.
  intros [H|H].
  - destruct H as [w1 [w2 [-> [H1 H2]]]].
    apply range_bounds in H1 as [c1 [-> Hc1]]. apply digit_bounds in H2 as [c2 [-> Hc2]].
    change (String.append (String c1 EmptyString) (String c2 EmptyString))
      with (String c1 (String c2 EmptyString)).
    rewrite int_two. change (N_of_ascii "0") with 48%N in Hc1.
    change (N_of_ascii "5") with 53%N in Hc1. lia.
  - apply digit_bounds in H as [c [-> Hc]]. rewrite int_one. lia.
Qed.

Lemma ichr_word c x :
  Re.lang (Re.ichr c) x ->
  exists c', x = String c' EmptyString /\ PyStr.lower_char c' = PyStr.lower_char c.
Proof.
  intros [c' [-> H]]. apply Ascii.eqb_eq in H. eauto.
Qed.

Lemma re_p_meridiem w :
  Re.lang Datetime.re_p w -> PyStr.lower w = "am" \/ PyStr.lower w = "pm".
Proof.
  intros [H|H]; destruct H as [w1 [w2 [-> [H1 H2]]]];
    apply ichr_word in H1 as [c1 [-> E1]]; apply ichr_word in H2 as [c2 [-> E2]];
    [left|right]; simpl; rewrite E1, E2; reflexivity.
Qed.

(** A successful [strptime] gives a time of day to the minute, on
    1900-01-01. *)
Lemma strptime_on_day data dt :
  Datetime.strptime data = OK dt -> on_day Datetime.ORDINAL_1900 dt.
Proof.
  unfold Datetime.strptime. intros H.
  destruct (Datetime.strptime_match data) as [[[[s1 s2] s3] s4]|] eqn:Hm; [|discriminate].
  destruct s4; [|discriminate]. injection H as <-.
  unfold Datetime.strptime_match in Hm.
  apply match_k_sound in Hm as [wI [r1 [-> [HI Hm]]]].
  apply match_k_sound in Hm as [wc [r2 [E1 [_ Hm]]]].
  apply match_k_sound in Hm as [wM [r3 [E2 [HM Hm]]]].
  apply match_k_sound in Hm as [wp [r4 [E3 [Hp Hm]]]].
  injection Hm as <- <- <- ->. subst r3 r2.
  rewrite !consumed_append.
  apply re_I_hour in HI. apply re_M_minute in HM. apply re_p_meridiem in Hp.
  unfold on_day. cbn [Datetime.ordinal Datetime.hour Datetime.minute Datetime.second
                        Datetime.microsecond].
  repeat split; try lia;
    destruct Hp as [-> | ->]; cbn [String.eqb Ascii.eqb Bool.eqb];
    destruct (Z.eqb_spec (Datetime.int wI) 12); lia.
Qed.

Lemma to_dt_on_day today t dt : to_dt today t = OK dt -> on_day today dt.
Proof.
  unfold to_dt. cbn [bind Monad_result ret]. unfold result_bind.
  destruct (Datetime.strptime (PyStr.strip t)) as [dt0|] eqn:H; [|discriminate].
  intros E. injection E as <-. apply strptime_on_day in H.
  unfold on_day in *. destruct dt0. cbn in *. intuition lia.
Qed.

(** ** Adding durations and comparing *)

Lemma on_day_in_range today dt : on_day today dt -> time_in_range dt.
Proof. unfold on_day, time_in_range. lia. Qed.

Lemma timedelta_new_us d h m s us :
  timedelta_us (Datetime.timedelta_new d h m s us)
  = (((d * 24 + h) * 60 + m) * 60 + s) * 1000000 + us.
Proof.
  unfold timedelta_us, Datetime.timedelta_new.
  cbn [Datetime.days Datetime.seconds Datetime.microseconds].
  set (total := (((d * 24 + h) * 60 + m) * 60 + s) * 1000000 + us).
  Z.div_mod_to_equations. lia.
Qed.

Lemma timedelta_add_us a b :
  timedelta_us (Datetime.timedelta_add a b) = timedelta_us a + timedelta_us b.
Proof.
  unfold Datetime.timedelta_add. rewrite timedelta_new_us. unfold timedelta_us. lia.
Qed.

(** [datetime + timedelta], when it returns, moves the datetime by the
    length of the duration and gives a date within the calendar. *)
Lemma add_us dt td dt' :
  Datetime.add dt td = OK dt' ->
  Datetime.to_us dt' = Datetime.to_us dt + timedelta_us td
  /\ time_in_range dt'
  /\ 1 <= Datetime.ordinal dt' <= Datetime.MAXORDINAL.
Proof.
  unfold Datetime.add.
  set (delta := Datetime.timedelta_add _ td).
  assert (Hus : timedelta_us delta = Datetime.to_us dt + timedelta_us td).
  { unfold delta. rewrite timedelta_add_us, timedelta_new_us. reflexivity. }
  assert (Hsec : 0 <= Datetime.seconds delta < 86400
                 /\ 0 <= Datetime.microseconds delta < 1000000).
  { unfold delta, Datetime.timedelta_add, Datetime.timedelta_new.
    cbn [Datetime.days Datetime.seconds Datetime.microseconds].
    Z.div_mod_to_equations. lia. }
  rewrite <- Hus. clear Hus. clearbody delta. destruct delta as [dd sec us].
  unfold timedelta_us.
  cbn [Datetime.days Datetime.seconds Datetime.microseconds] in *.
  destruct ((0 <? dd) && (dd <=? Datetime.MAXORDINAL))%bool eqn:Hd; [|discriminate].
  apply andb_true_iff in Hd as [Hd1 Hd2]. apply Z.ltb_lt in Hd1. apply Z.leb_le in Hd2.
  intros E. injection E as <-.
  unfold Datetime.to_us, time_in_range.
  cbn [Datetime.ordinal Datetime.hour Datetime.minute Datetime.second Datetime.microsecond].
  unfold Datetime.MAXORDINAL in *. Z.div_mod_to_equations. lia.
Qed.

(** [datetime + timedelta] returns unless the date leaves the calendar. *)
Lemma add_ok dt td :
  time_in_range dt ->
  0 <= timedelta_us td <= 86400000000 ->
  1 <= Datetime.ordinal dt < Datetime.MAXORDINAL ->
  exists dt', Datetime.add dt td = OK dt'.
Proof.
  intros Hr Htd Hord. unfold Datetime.add.
  set (delta := Datetime.timedelta_add _ td).
  assert (Hus : timedelta_us delta = Datetime.to_us dt + timedelta_us td).
  { unfold delta. rewrite timedelta_add_us, timedelta_new_us. reflexivity. }
  assert (Hsec : 0 <= Datetime.seconds delta < 86400
                 /\ 0 <= Datetime.microseconds delta < 1000000).
  { unfold delta, Datetime.timedelta_add, Datetime.timedelta_new.
    cbn [Datetime.days Datetime.seconds Datetime.microseconds].
    Z.div_mod_to_equations. lia. }
  assert (Hd : 0 < Datetime.days delta <= Datetime.MAXORDINAL).
  { unfold timedelta_us, Datetime.to_us, time_in_range, Datetime.MAXORDINAL in *. lia. }
  replace ((0 <? Datetime.days delta) && (Datetime.days delta <=? Datetime.MAXORDINAL))%bool
    with true by (symmetry; apply andb_true_iff; split;
                  [apply Z.ltb_lt|apply Z.leb_le]; lia).
  eauto.
Qed.

(** On times of day within their ranges the comparison of datetimes is the
    comparison of their positions in time, and the position determines
    the datetime. *)
Lemma lt_to_us a b :
  time_in_range a -> time_in_range b ->
  Datetime.lt a b = true <-> Datetime.to_us a < Datetime.to_us b.
Proof.
  unfold time_in_range, Datetime.lt, Datetime.cmp, Datetime.lex, Datetime.to_us.
  intros Ha Hb.
  destruct (Z.compare_spec (Datetime.ordinal a) (Datetime.ordinal b));
  destruct (Z.compare_spec (Datetime.hour a) (Datetime.hour b));
  destruct (Z.compare_spec (Datetime.minute a) (Datetime.minute b));
  destruct (Z.compare_spec (Datetime.second a) (Datetime.second b));
  destruct (Z.compare_spec (Datetime.microsecond a) (Datetime.microsecond b));
  split; intros; try discriminate; try reflexivity; lia.
Qed.

Lemma le_to_us a b :
  time_in_range a -> time_in_range b ->
  Datetime.le a b = true <-> Datetime.to_us a <= Datetime.to_us b.
Proof.
  unfold time_in_range, Datetime.le, Datetime.cmp, Datetime.lex, Datetime.to_us.
  intros Ha Hb.
  destruct (Z.compare_spec (Datetime.ordinal a) (Datetime.ordinal b));
  destruct (Z.compare_spec (Datetime.hour a) (Datetime.hour b));
  destruct (Z.compare_spec (Datetime.minute a) (Datetime.minute b));
  destruct (Z.compare_spec (Datetime.second a) (Datetime.second b));
  destruct (Z.compare_spec (Datetime.microsecond a) (Datetime.microsecond b));
  split; intros; try discriminate; try reflexivity; lia.
Qed.

Lemma to_us_inj a b :
  time_in_range a -> time_in_range b ->
  Datetime.to_us a = Datetime.to_us b -> a = b.
Proof.
  unfold time_in_range, Datetime.to_us.
  destruct a as [o1 h1 m1 s1 u1], b as [o2 h2 m2 s2 u2].
  cbn [Datetime.ordinal Datetime.hour Datetime.minute Datetime.second Datetime.microsecond].
  intros Ha Hb E.
  assert (o1 = o2) by lia. assert (h1 = h2) by lia. assert (m1 = m2) by lia.
  assert (s1 = s2) by lia. assert (u1 = u2) by lia. subst. reflexivity.
Qed.

(** ** The time range resolver *)

(** The tokens are words of the pattern of [parse_time_range]. *)
Lemma full_times_words time_str : Forall (Re.lang time_re) (full_times time_str).
Proof. apply findall_words. Qed.

(** White space before [am] or [pm] is part of a token, and [strptime]
    rejects the token that has some. *)
Example parse_time_range_space_before_meridiem :
  full_times "8:00 AM Wednesday" = ["8:00 am"]
  /\ parse_time_range 739581 "8:00 AM Wednesday" = Raise (ValueError_strptime "8:00 am").
Proof. split; reflexivity. Qed.

Example parse_time_range_documented_formats :
  parse_time_range 739581 "1:00pm - 2:00pm"
  = OK (Datetime.mk_datetime 739581 13 0 0 0, Datetime.mk_datetime 739581 14 0 0 0)
  /\ parse_time_range 739581 "11:00pm - 1:00am"
     = OK (Datetime.mk_datetime 739581 23 0 0 0, Datetime.mk_datetime 739582 1 0 0 0)
  /\ parse_time_range 739581 "8:00am Wednesday, November 26, 2025 - 2nd Floor - 2122"
     = OK (Datetime.mk_datetime 739581 8 0 0 0, Datetime.mk_datetime 739581 9 0 0 0)
  /\ parse_time_range 739581 "no time here" = Raise (ValueError_no_time "no time here").
Proof. repeat split; reflexivity. Qed.

Lemma strptime_reads_every_clock_text :
  forallb (fun h12 =>
    forallb (fun m =>
      forallb (fun pad =>
        strptime_reads pad h12 m AM && strptime_reads pad h12 m PM)
        [true; false]) clock_minutes) clock_hours = true.
Proof. vm_compute. reflexivity. Qed.

Lemma to_dt_clock_token today tok h m :
  clock_token tok h m -> to_dt today tok = OK (Datetime.mk_datetime today h m 0 0).
Proof.
  intros [pad [h12 [p [Hh [Hm [-> ->]]]]]].
  pose proof strptime_reads_every_clock_text as H.
  rewrite forallb_forall in H. specialize (H h12).
  assert (Hin : In h12 clock_hours).
  { unfold clock_hours. rewrite <- (Z2Nat.id h12) by lia.
    apply in_map, in_seq. lia. }
  specialize (H Hin). rewrite forallb_forall in H. specialize (H m).
  assert (Hin' : In m clock_minutes).
  { unfold clock_minutes. rewrite <- (Z2Nat.id m) by lia.
    apply in_map, in_seq. lia. }
  specialize (H Hin'). rewrite forallb_forall in H. specialize (H pad).
  assert (Hpad : In pad [true; false]) by (destruct pad; simpl; auto).
  specialize (H Hpad). apply andb_true_iff in H as [Ham Hpm].
  assert (Hp : strptime_reads pad h12 m p = true) by (destruct p; assumption).
  unfold strptime_reads in Hp. unfold to_dt. cbn [bind Monad_result ret result_bind].
  destruct (Datetime.strptime (PyStr.strip (clock_text pad h12 m p))) as [dt|];
    [|discriminate].
  destruct dt as [o hh mm ss us].
  cbn [Datetime.ordinal Datetime.hour Datetime.minute Datetime.second
         Datetime.microsecond] in Hp.
  repeat (apply andb_true_iff in Hp as [Hp ?]).
  repeat match goal with E : (_ =? _) = true |- _ => apply Z.eqb_eq in E end.
  subst. reflexivity.
Qed.

Lemma parse_time_range_none today time_str :
  full_times time_str = [] ->
  parse_time_range today time_str = Raise (ValueError_no_time time_str).
Proof. unfold parse_time_range. intros ->. reflexivity. Qed.

Lemma parse_time_range_one today time_str tok :
  full_times time_str = [tok] ->
  parse_time_range today time_str =
  (start_dt <- to_dt today tok ;;
   end_dt <- Datetime.add start_dt (Datetime.timedelta_new 0 1 0 0 0) ;;
   ret (start_dt, end_dt)).
Proof. unfold parse_time_range. intros ->. reflexivity. Qed.

Lemma parse_time_range_two today time_str tok1 tok2 more :
  full_times time_str = tok1 :: tok2 :: more ->
  parse_time_range today time_str =
  (start_dt <- to_dt today tok1 ;;
   end_dt <- to_dt today tok2 ;;
   end_dt <- (if Datetime.le end_dt start_dt
              then Datetime.add end_dt (Datetime.timedelta_new 1 0 0 0 0)
              else ret end_dt) ;;
   ret (start_dt, end_dt)).
Proof.
  unfold parse_time_range. intros ->.
  cbn [List.length Nat.eqb Nat.leb].
  change 0 with (Z.of_nat 0). change 1 with (Z.of_nat 1).
  rewrite (getitem_nth (tok1 :: tok2 :: more) 0 EmptyString) by (simpl; lia).
  rewrite (getitem_nth (tok1 :: tok2 :: more) 1 EmptyString) by (simpl; lia).
  reflexivity.
Qed.

Lemma one_hour_us : timedelta_us (Datetime.timedelta_new 0 1 0 0 0) = 3600000000.
Proof. reflexivity. Qed.

Lemma one_day_us : timedelta_us (Datetime.timedelta_new 1 0 0 0 0) = 86400000000.
Proof. reflexivity. Qed.

Lemma mk_on_day today h m :
  0 <= h <= 23 -> 0 <= m <= 59 -> on_day today (Datetime.mk_datetime today h m 0 0).
Proof. unfold on_day. simpl. lia. Qed.

Lemma clock_token_range tok h m : clock_token tok h m -> 0 <= h <= 23 /\ 0 <= m <= 59.
Proof.
  intros [pad [h12 [p [Hh [Hm [_ ->]]]]]]. split; [|exact Hm].
  unfold hour24. destruct p; destruct (Z.eqb_spec h12 12); lia.
Qed.

(** Rolling a time of day to the next day keeps the time of day. *)
Lemma add_one_day today h m :
  1 <= today < Datetime.MAXORDINAL -> 0 <= h <= 23 -> 0 <= m <= 59 ->
  Datetime.add (Datetime.mk_datetime today h m 0 0) (Datetime.timedelta_new 1 0 0 0 0)
  = OK (Datetime.mk_datetime (today + 1) h m 0 0).
Proof.
  intros Ht Hh Hm.
  pose proof (on_day_in_range _ _ (mk_on_day today _ _ Hh Hm)) as Hr.
  destruct (add_ok (Datetime.mk_datetime today h m 0 0)
              (Datetime.timedelta_new 1 0 0 0 0) Hr) as [dt' E].
  - rewrite one_day_us. lia.
  - exact Ht.
  - rewrite E. f_equal. destruct (add_us _ _ _ E) as [Hus [Hr' _]].
    apply to_us_inj; [exact Hr'| |].
    + apply (on_day_in_range (today + 1)). apply mk_on_day; lia.
    + rewrite Hus, one_day_us. unfold Datetime.to_us. simpl. lia.
Qed.

(** C1 (as amended): when exactly one token is found, it is a well-formed
    12-hour clock text and the current date is before 9999-12-31,
    [parse_time_range] returns [(start, end)] where [start] is the time the
    token reads as, on the current date, and [end] is [start] plus one
    hour. *)
Theorem parse_time_range_single today time_str tok h m :
  1 <= today < Datetime.MAXORDINAL ->
  full_times time_str = [tok] ->
  clock_token tok h m ->
  let start_dt := Datetime.mk_datetime today h m 0 0 in
  exists end_dt,
    parse_time_range today time_str = OK (start_dt, end_dt)
    /\ Datetime.add start_dt (Datetime.timedelta_new 0 1 0 0 0) = OK end_dt
    /\ Datetime.to_us end_dt = Datetime.to_us start_dt + 3600000000.
Proof.
  intros Ht Htok Hclock start_dt.
  destruct (clock_token_range _ _ _ Hclock) as [Hh Hm].
  pose proof (on_day_in_range _ _ (mk_on_day today _ _ Hh Hm)) as Hr.
  destruct (add_ok start_dt (Datetime.timedelta_new 0 1 0 0 0) Hr) as [end_dt E].
  - rewrite one_hour_us. lia.
  - exact Ht.
  - exists end_dt. split; [|split].
    + rewrite (parse_time_range_one today _ _ Htok), (to_dt_clock_token today _ _ _ Hclock).
      cbn [bind Monad_result ret result_bind]. fold start_dt. rewrite E. reflexivity.
    + exact E.
    + destruct (add_us _ _ _ E) as [Hus _]. rewrite Hus, one_hour_us. reflexivity.
Qed.

Lemma parse_time_range_single_witness :
  let time_str := "8:00am Wednesday, November 26, 2025" in
  full_times time_str = ["8:00am"]
  /\ exists end_dt,
      parse_time_range 739581 time_str
      = OK (Datetime.mk_datetime 739581 8 0 0 0, end_dt)
      /\ Datetime.add (Datetime.mk_datetime 739581 8 0 0 0)
                      (Datetime.timedelta_new 0 1 0 0 0) = OK end_dt
      /\ Datetime.to_us end_dt
         = Datetime.to_us (Datetime.mk_datetime 739581 8 0 0 0) + 3600000000.
Proof.
  cbv zeta. split; [reflexivity|].
  apply (parse_time_range_single 739581 "8:00am Wednesday, November 26, 2025"
           "8:00am" 8 0).
  - unfold Datetime.MAXORDINAL. lia.
  - reflexivity.
  - exists false, 8, AM. repeat split; try lia; reflexivity.
Defined.

(** C1, as stated, fails on a token that the pattern finds and [strptime]
    rejects: no pair is returned.  (Nor is one returned on 9999-12-31 in
    the last hour of the day, where [start] plus one hour leaves the
    calendar.) *)
Lemma parse_time_range_single_rejected :
  full_times "13:00pm" = ["13:00pm"]
  /\ parse_time_range 739581 "13:00pm" = Raise (ValueError_strptime "13:00pm")
  /\ ~ (exists start_dt end_dt,
          parse_time_range 739581 "13:00pm" = OK (start_dt, end_dt))
  /\ parse_time_range Datetime.MAXORDINAL "11:30pm" = Raise OverflowError.
Proof.
  split; [reflexivity|]. split; [reflexivity|]. split; [|reflexivity].
  intros [s [e H]]. vm_compute in H. discriminate H.
Qed.

(** C2 (as amended): when two or more tokens are found, the first two are
    well-formed 12-hour clock texts and the current date is before
    9999-12-31, [parse_time_range] returns the first as [start] and the
    second as [end], both on the current date, whatever tokens follow;
    and when that puts [end] at or before [start], [end] is moved to the
    next day, with the same time of day. *)
Theorem parse_time_range_pair today time_str tok1 tok2 more h1 m1 h2 m2 :
  1 <= today < Datetime.MAXORDINAL ->
  full_times time_str = tok1 :: tok2 :: more ->
  clock_token tok1 h1 m1 ->
  clock_token tok2 h2 m2 ->
  let start_dt := Datetime.mk_datetime today h1 m1 0 0 in
  let same_day_end := Datetime.mk_datetime today h2 m2 0 0 in
  parse_time_range today time_str =
  OK (start_dt,
      if Datetime.le same_day_end start_dt
      then Datetime.mk_datetime (today + 1) h2 m2 0 0
      else same_day_end).
Proof.
  intros Ht Htok H1 H2 start_dt same_day_end.
  destruct (clock_token_range _ _ _ H2) as [Hh Hm].
  rewrite (parse_time_range_two today _ _ _ _ Htok).
  rewrite (to_dt_clock_token today _ _ _ H1), (to_dt_clock_token today _ _ _ H2).
  cbn [bind Monad_result ret result_bind]. fold start_dt same_day_end.
  destruct (Datetime.le same_day_end start_dt).
  - unfold same_day_end. rewrite (add_one_day _ _ _ Ht Hh Hm). reflexivity.
  - reflexivity.
Qed.

Lemma parse_time_range_pair_witness :
  parse_time_range 739581 "11:00pm - 1:00am, then 2:00am"
  = OK (Datetime.mk_datetime 739581 23 0 0 0, Datetime.mk_datetime 739582 1 0 0 0).
Proof.
  apply (parse_time_range_pair 739581 "11:00pm - 1:00am, then 2:00am"
           "11:00pm" "1:00am" ["2:00am"] 23 0 1 0).
  - unfold Datetime.MAXORDINAL. lia.
  - reflexivity.
  - exists false, 11, PM. repeat split; try lia; reflexivity.
  - exists false, 1, AM. repeat split; try lia; reflexivity.
Defined.

(** C2, as stated, fails on a pair of tokens of which one is rejected by
    [strptime]: nothing is returned.  (Nor is anything returned on
    9999-12-31 for a range across midnight, where the next day leaves the
    calendar.) *)
Lemma parse_time_range_pair_rejected :
  full_times "11:00pm - 0:30am" = ["11:00pm"; "0:30am"]
  /\ parse_time_range 739581 "11:00pm - 0:30am" = Raise (ValueError_strptime "0:30am")
  /\ ~ (exists start_dt end_dt,
          parse_time_range 739581 "11:00pm - 0:30am" = OK (start_dt, end_dt))
  /\ parse_time_range Datetime.MAXORDINAL "11:00pm - 1:00am" = Raise OverflowError.
Proof.
  split; [reflexivity|]. split; [reflexivity|]. split; [|reflexivity].
  intros [s [e H]]. vm_compute in H. discriminate H.
Qed.

Lemma strptime_raises data e :
  Datetime.strptime data = Raise e ->
  e = ValueError_strptime data \/ exists rest, e = ValueError_unconverted rest.
Proof.
  unfold Datetime.strptime.
  destruct (Datetime.strptime_match data) as [[[[s1 s2] s3] s4]|].
  - destruct s4; [discriminate|]. intros E. injection E as <-. eauto.
  - intros E. injection E as <-. auto.
Qed.

Lemma to_dt_raises today t e :
  to_dt today t = Raise e -> forall label, e <> ValueError_no_time label.
Proof.
  unfold to_dt. cbn [bind Monad_result ret result_bind].
  destruct (Datetime.strptime (PyStr.strip t)) as [dt|e'] eqn:H; [discriminate|].
  intros E. injection E as <-. intros label.
  destruct (strptime_raises _ _ H) as [-> | [rest ->]]; discriminate.
Qed.

Lemma add_raises dt td e : Datetime.add dt td = Raise e -> e = OverflowError.
Proof.
  unfold Datetime.add.
  destruct (_ && _)%bool; [discriminate|]. intros E. injection E as <-. reflexivity.
Qed.

(** C3 (as amended): [parse_time_range] raises the error that carries the
    time label if and only if no token is found; with at least one token
    it returns whenever the tokens it reads, the first and the second
    when there is one, are well-formed 12-hour clock texts and the
    current date is before 9999-12-31. *)
Theorem parse_time_range_failure today time_str :
  (forall label,
      parse_time_range today time_str = Raise (ValueError_no_time label)
      <-> full_times time_str = [] /\ label = time_str)
  /\ (1 <= today < Datetime.MAXORDINAL ->
      full_times time_str <> [] ->
      (forall tok, In tok (firstn 2 (full_times time_str)) ->
                   exists h m, clock_token tok h m) ->
      exists start_dt end_dt, parse_time_range today time_str = OK (start_dt, end_dt)).
Proof.
  split.
  - intros label. split.
    + intros H. destruct (full_times time_str) as [|tok1 [|tok2 more]] eqn:Htok.
      * rewrite (parse_time_range_none today _ Htok) in H. injection H as ->. auto.
      * exfalso. rewrite (parse_time_range_one today _ _ Htok) in H.
        destruct (to_dt today tok1) as [s|e] eqn:E1; run_result H.
        -- destruct (Datetime.add s _) as [e2|e2] eqn:E2; run_result H; [discriminate|].
           apply add_raises in E2. congruence.
        -- injection H as ->. exact (to_dt_raises _ _ _ E1 _ eq_refl).
      * exfalso. rewrite (parse_time_range_two today _ _ _ _ Htok) in H.
        destruct (to_dt today tok1) as [s|e] eqn:E1; run_result H.
        -- destruct (to_dt today tok2) as [s2|e] eqn:E2; run_result H.
           ++ destruct (Datetime.le s2 s).
              ** destruct (Datetime.add s2 _) as [e3|e3] eqn:E3; run_result H;
                   [discriminate|].
                 apply add_raises in E3. congruence.
              ** discriminate.
           ++ injection H as ->. exact (to_dt_raises _ _ _ E2 _ eq_refl).
        -- injection H as ->. exact (to_dt_raises _ _ _ E1 _ eq_refl).
    + intros [Htok ->]. apply parse_time_range_none. exact Htok.
  - intros Ht Hne Hwf.
    destruct (full_times time_str) as [|tok1 [|tok2 more]] eqn:Htok; [contradiction| |].
    + destruct (Hwf tok1) as [h [m Hc]]; [simpl; auto|].
      destruct (clock_token_range _ _ _ Hc) as [Hh Hm].
      rewrite (parse_time_range_one today _ _ Htok), (to_dt_clock_token today _ _ _ Hc).
      cbn [bind Monad_result ret result_bind].
      destruct (add_ok (Datetime.mk_datetime today h m 0 0)
                  (Datetime.timedelta_new 0 1 0 0 0)) as [end_dt E].
      * apply (on_day_in_range today). apply mk_on_day; assumption.
      * rewrite one_hour_us. lia.
      * exact Ht.
      * rewrite E. cbn [result_bind]. eauto.
    + destruct (Hwf tok1) as [h1 [m1 Hc1]]; [simpl; auto|].
      destruct (Hwf tok2) as [h2 [m2 Hc2]]; [simpl; auto|].
      destruct (clock_token_range _ _ _ Hc2) as [Hh Hm].
      rewrite (parse_time_range_two today _ _ _ _ Htok).
      rewrite (to_dt_clock_token today _ _ _ Hc1), (to_dt_clock_token today _ _ _ Hc2).
      cbn [bind Monad_result ret result_bind].
      destruct (Datetime.le _ _).
      * rewrite (add_one_day _ _ _ Ht Hh Hm). cbn [result_bind]. eauto.
      * cbn [result_bind]. eauto.
Qed.

Lemma parse_time_range_failure_witness :
  (parse_time_range 739581 "no time here" = Raise (ValueError_no_time "no time here")
   <-> full_times "no time here" = [] /\ "no time here" = "no time here")
  /\ exists start_dt end_dt,
      parse_time_range 739581 "1:00pm - 2:00pm" = OK (start_dt, end_dt).
Proof.
  split.
  - apply (proj1 (parse_time_range_failure 739581 "no time here")).
  - apply (proj2 (parse_time_range_failure 739581 "1:00pm - 2:00pm")).
    + unfold Datetime.MAXORDINAL. lia.
    + discriminate.
    + intros tok [<- | [<- | []]].
      * exists 13, 0, false, 1, PM. repeat split; try lia; reflexivity.
      * exists 14, 0, false, 2, PM. repeat split; try lia; reflexivity.
Defined.

(** C3, as stated, fails on a label with a token that [strptime] rejects:
    a token is found, and yet the call raises, with an error that carries
    the token and not the label. *)
Lemma parse_time_range_token_rejected :
  full_times "Room 2 13:00pm" = ["13:00pm"]
  /\ parse_time_range 739581 "Room 2 13:00pm" = Raise (ValueError_strptime "13:00pm")
  /\ ~ (full_times "Room 2 13:00pm" <> [] ->
        exists start_dt end_dt,
          parse_time_range 739581 "Room 2 13:00pm" = OK (start_dt, end_dt)).
Proof.
  split; [reflexivity|]. split; [reflexivity|].
  intros H. destruct H as [s [e H]]; [discriminate|].
  vm_compute in H. discriminate H.
Qed.

(** C9: whenever [parse_time_range] returns, [start] is strictly before
    [end] and [end] is at most 24 hours after [start]: exactly one hour
    with a single token, and more than nothing and at most 24 hours with
    two tokens or more. *)
Theorem parse_time_range_ordered today time_str start_dt end_dt :
  parse_time_range today time_str = OK (start_dt, end_dt) ->
  Datetime.lt start_dt end_dt = true
  /\ 0 < Datetime.to_us end_dt - Datetime.to_us start_dt <= 86400000000
  /\ (List.length (full_times time_str) = 1%nat ->
      Datetime.to_us end_dt - Datetime.to_us start_dt = 3600000000).
Proof.
  intros H. destruct (full_times time_str) as [|tok1 [|tok2 more]] eqn:Htok.
  - rewrite (parse_time_range_none today _ Htok) in H. discriminate.
  - rewrite (parse_time_range_one today _ _ Htok) in H.
    destruct (to_dt today tok1) as [s|] eqn:E1; run_result H; [|discriminate].
    destruct (Datetime.add s _) as [e|] eqn:E2; run_result H; [|discriminate].
    injection H as <- <-.
    apply to_dt_on_day, on_day_in_range in E1.
    destruct (add_us _ _ _ E2) as [Hus [Hr _]]. rewrite one_hour_us in Hus.
    split; [apply lt_to_us; [assumption|assumption|lia]|]. split; [lia|]. intros _. lia.
  - rewrite (parse_time_range_two today _ _ _ _ Htok) in H.
    destruct (to_dt today tok1) as [s|] eqn:E1; run_result H; [|discriminate].
    destruct (to_dt today tok2) as [s2|] eqn:E2; run_result H; [|discriminate].
    apply to_dt_on_day in E1, E2.
    pose proof (on_day_in_range _ _ E1) as R1. pose proof (on_day_in_range _ _ E2) as R2.
    destruct (Datetime.le s2 s) eqn:Hle.
    + destruct (Datetime.add s2 _) as [e|] eqn:E3; run_result H; [|discriminate].
      injection H as <- <-.
      apply le_to_us in Hle; [|assumption|assumption].
      destruct (add_us _ _ _ E3) as [Hus [Hr _]]. rewrite one_day_us in Hus.
      assert (Hday : Datetime.to_us s - Datetime.to_us s2 < 86400000000).
      { unfold on_day in E1, E2. unfold Datetime.to_us. lia. }
      split; [apply lt_to_us; [assumption|assumption|lia]|]. split; [lia|].
      simpl. intros Hlen. discriminate Hlen.
    + injection H as <- <-.
      assert (Hlt : Datetime.to_us s < Datetime.to_us s2).
      { destruct (Z.lt_ge_cases (Datetime.to_us s) (Datetime.to_us s2)) as [Hc|Hc];
          [exact Hc|].
        apply (le_to_us _ _ R2 R1) in Hc. congruence. }
      assert (Hday : Datetime.to_us s2 - Datetime.to_us s < 86400000000).
      { unfold on_day in E1, E2. unfold Datetime.to_us. lia. }
      split; [apply lt_to_us; [assumption|assumption|lia]|]. split; [lia|].
      simpl. intros Hlen. discriminate Hlen.
Qed.

Lemma parse_time_range_ordered_witness :
  Datetime.lt (Datetime.mk_datetime 739581 23 0 0 0)
              (Datetime.mk_datetime 739582 1 0 0 0) = true
  /\ 0 < Datetime.to_us (Datetime.mk_datetime 739582 1 0 0 0)
         - Datetime.to_us (Datetime.mk_datetime 739581 23 0 0 0) <= 86400000000
  /\ (List.length (full_times "11:00pm - 1:00am") = 1%nat ->
      Datetime.to_us (Datetime.mk_datetime 739582 1 0 0 0)
      - Datetime.to_us (Datetime.mk_datetime 739581 23 0 0 0) = 3600000000).
Proof.
  apply (parse_time_range_ordered 739581 "11:00pm - 1:00am").
  reflexivity.
Defined.

(** ** The resource scraper *)

(** One turn of the loop of [fetch_single_eid]. *)
Lemma for_events_cons eid name now a evs results e st :
  for_events eid name now (a :: evs) results e st =
  match title_attribute a with
  | None | Some EmptyString => for_events eid name now evs results e st
  | Some title =>
      match parse_title title with
      | Raise x => (Raise x, st)
      | OK (time_str, status_str, _) =>
          match parse_time_range (Datetime.ordinal (clock e (reads st))) time_str with
          | Raise x => (Raise x, tick st)
          | OK (start_time, _) =>
              if Datetime.lt start_time now
              then for_events eid name now evs results e (tick st)
              else for_events eid name now evs
                     (results ++ [mk_event eid name time_str status_str]) e (tick st)
          end
      end
  end.
Proof.
  cbn [for_events]. destruct (title_attribute a) as [[|c t]|]; try reflexivity.
  cbn [bind Monad_M M_bind lift]. destruct (parse_title (String c t)) as [[[ts ss] rn]|x];
    [|reflexivity].
  unfold parse_time_range_now, datetime_now. cbn [bind Monad_M M_bind lift].
  fold (tick st).
  destruct (parse_time_range (Datetime.ordinal (clock e (reads st))) ts) as [[sd ed]|x];
    [|reflexivity].
  destruct (Datetime.lt sd now); reflexivity.
Qed.

Lemma titles_cons_untitled a evs : untitled a -> titles (a :: evs) = titles evs.
Proof. unfold titles. intros [H|H]; simpl; rewrite H; reflexivity. Qed.

Lemma titles_cons_titled a evs c t :
  title_attribute a = Some (String c t) -> titles (a :: evs) = String c t :: titles evs.
Proof. unfold titles. intros H. simpl. rewrite H. reflexivity. Qed.

Lemma titles_app evs1 evs2 : titles (evs1 ++ evs2) = titles evs1 ++ titles evs2.
Proof. unfold titles. apply flat_map_app. Qed.

Lemma titles_selected td : titles (filter has_title td) = titles td.
Proof.
  induction td as [|a td IH]; [reflexivity|]. cbn [filter]. unfold has_title at 1.
  destruct (title_attribute a) as [[|c t]|] eqn:Ha; cbv beta iota.
  - rewrite !titles_cons_untitled by (right; exact Ha). exact IH.
  - rewrite !(titles_cons_titled _ _ c t) by exact Ha. now rewrite IH.
  - rewrite titles_cons_untitled by (left; exact Ha). exact IH.
Qed.

Lemma titles_nonempty td : Forall (fun t => nonempty t = true) (titles td).
Proof.
  induction td as [|a td IH]; [constructor|].
  destruct (title_attribute a) as [[|c t]|] eqn:Ha.
  - rewrite titles_cons_untitled by (right; exact Ha). exact IH.
  - rewrite (titles_cons_titled _ _ c t) by exact Ha. constructor; [reflexivity|exact IH].
  - rewrite titles_cons_untitled by (left; exact Ha). exact IH.
Qed.

(** The loop sees its anchors through their titles only. *)
Lemma for_events_titles eid name now e :
  forall evs results st,
    for_events eid name now evs results e st
    = for_events eid name now (map (fun t => mk_anchor (Some t)) (titles evs)) results e st.
Proof.
  induction evs as [|a evs IH]; intros results st; [reflexivity|].
  destruct (title_attribute a) as [[|c t]|] eqn:Ha.
  - rewrite titles_cons_untitled by (right; exact Ha).
    rewrite for_events_cons, Ha. apply IH.
  - rewrite (titles_cons_titled _ _ c t) by exact Ha. cbn [map].
    rewrite !for_events_cons, Ha. cbn [title_attribute].
    destruct (parse_title (String c t)) as [[[ts ss] rn]|x]; [|reflexivity].
    destruct (parse_time_range _ ts) as [[sd ed]|x]; [|reflexivity].
    destruct (Datetime.lt sd now); apply IH.
  - rewrite titles_cons_untitled by (left; exact Ha).
    rewrite for_events_cons, Ha. apply IH.
Qed.

(** When the loop returns, it has appended the entries of the titles that
    resolve to a start not before [now], in order. *)
Lemma for_events_result eid name now e :
  forall evs results st out st',
    for_events eid name now evs results e st = (OK out, st') ->
    exists xs,
      resolves_from e (reads st) (titles evs) xs
      /\ out = results ++ map (event_of eid name) (filter (upcoming now) xs).
Proof.
  induction evs as [|a evs IH]; intros results st out st' H.
  - injection H as <- <-. exists []. split; [constructor|]. simpl. now rewrite app_nil_r.
  - rewrite for_events_cons in H.
    destruct (title_attribute a) as [[|c t]|] eqn:Ha.
    + rewrite titles_cons_untitled by (right; exact Ha). eapply IH; exact H.
    + rewrite (titles_cons_titled _ _ c t) by exact Ha.
      destruct (parse_title (String c t)) as [[[ts ss] rn]|x] eqn:Hp; [|discriminate].
      destruct (parse_time_range _ ts) as [[sd ed]|x] eqn:Hr; [|discriminate].
      assert (Hx : resolves e (reads st) (String c t) (ts, ss, sd)).
      { exists rn, ed. split; assumption. }
      destruct (Datetime.lt sd now) eqn:Hlt;
        destruct (IH _ _ _ _ H) as [xs [Hxs ->]];
        exists ((ts, ss, sd) :: xs); (split; [constructor; assumption|]);
        cbn [filter].
      * replace (upcoming now (ts, ss, sd)) with false
          by (unfold upcoming; cbn [snd]; now rewrite Hlt).
        reflexivity.
      * replace (upcoming now (ts, ss, sd)) with true
          by (unfold upcoming; cbn [snd]; now rewrite Hlt).
        cbn [map]. rewrite <- app_assoc. reflexivity.
    + rewrite titles_cons_untitled by (left; exact Ha). eapply IH; exact H.
Qed.

(** And it returns as soon as every title resolves. *)
Lemma for_events_returns eid name now e :
  forall evs results st xs,
    resolves_from e (reads st) (titles evs) xs ->
    exists st',
      for_events eid name now evs results e st
      = (OK (results ++ map (event_of eid name) (filter (upcoming now) xs)), st').
Proof.
  induction evs as [|a evs IH]; intros results st xs H.
  - inversion H; subst. exists st. simpl. now rewrite app_nil_r.
  - rewrite for_events_cons.
    destruct (title_attribute a) as [[|c t]|] eqn:Ha.
    + rewrite titles_cons_untitled in H by (right; exact Ha). apply IH; exact H.
    + rewrite (titles_cons_titled _ _ c t) in H by exact Ha.
      inversion H as [|k title x ts0 xs0 Hx Hrest]; subst.
      destruct x as [[ts ss] sd]. destruct Hx as [rn [ed [Hp Hr]]].
      rewrite Hp, Hr. cbn [filter].
      replace (upcoming now (ts, ss, sd)) with (negb (Datetime.lt sd now))
        by reflexivity.
      destruct (Datetime.lt sd now).
      * cbn [negb]. apply (IH results (tick st) xs0). exact Hrest.
      * cbn [negb map].
        destruct (IH (results ++ [mk_event eid name ts ss]) (tick st) xs0 Hrest)
          as [st' E].
        exists st'. rewrite E, <- app_assoc. reflexivity.
    + rewrite titles_cons_untitled in H by (left; exact Ha). apply IH; exact H.
Qed.

Lemma fetch_single_eid_result pg eid e st td results st' :
  timeline_lane pg eid = Some td ->
  fetch_single_eid pg eid e st = (OK results, st') ->
  exists xs,
    resolves_from e (S (reads st)) (titles td) xs
    /\ results = map (event_of eid (room_name_text pg eid))
                    (filter (upcoming (clock e (reads st))) xs).
Proof.
  intros Hlane H. unfold fetch_single_eid in H. rewrite Hlane in H.
  unfold datetime_now in H. cbn [bind Monad_M M_bind] in H. fold (tick st) in H.
  apply for_events_result in H as [xs [Hxs ->]].
  rewrite titles_selected in Hxs. exists xs. split; [exact Hxs|reflexivity].
Qed.

(** C6: the entries returned for a resource are exactly those of its
    titles whose resolved start is not before the instant [now] read at
    the start of the scrape of that resource: a title that resolves to an
    earlier start leaves no entry, and every other one leaves an entry
    with its four fields, in document order.  The scrape returns such a
    list exactly when every title of the cell resolves. *)
Theorem fetch_single_eid_keeps_upcoming pg eid e st td :
  timeline_lane pg eid = Some td ->
  let now := clock e (reads st) in
  forall results,
    (exists st', fetch_single_eid pg eid e st = (OK results, st'))
    <-> (exists xs,
           resolves_from e (S (reads st)) (titles td) xs
           /\ results = map (event_of eid (room_name_text pg eid))
                           (filter (upcoming now) xs)).
Proof.
  intros Hlane now results. split.
  - intros [st' H]. exact (fetch_single_eid_result pg eid e st td results st' Hlane H).
  - intros [xs [Hxs ->]]. unfold fetch_single_eid. rewrite Hlane.
    unfold datetime_now. cbn [bind Monad_M]. unfold M_bind. fold (tick st).
    rewrite <- titles_selected in Hxs.
    destruct (for_events_returns eid (room_name_text pg eid) now e
                (filter has_title td) [] (tick st) xs Hxs) as [st' E].
    exists st'. exact E.
Qed.

Lemma fetch_single_eid_keeps_upcoming_witness :
  timeline_lane sample_page "1001" = Some sample_lane
  /\ exists xs,
      resolves_from (sample_env "1001") 1 (titles sample_lane) xs
      /\ [ mk_event "1001" "2121" "1:00pm" "Available";
           mk_event "1001" "2121" "11:00pm - 1:00am" "Unavailable" ]
         = map (event_of "1001" "2121") (filter (upcoming sample_now) xs).
Proof.
  split; [reflexivity|].
  apply (fetch_single_eid_keeps_upcoming sample_page "1001" (sample_env "1001")
           sample_state sample_lane eq_refl).
  exists (mk_state 4 (files sample_state)). reflexivity.
Defined.

(** A resource whose cell is missing contributes nothing and reads no
    clock. *)
Lemma fetch_single_eid_missing pg eid e st :
  timeline_lane pg eid = None -> fetch_single_eid pg eid e st = (OK [], st).
Proof. intros H. unfold fetch_single_eid. rewrite H. reflexivity. Qed.

Lemma for_eids_cons pg eid eids all_results e st :
  for_eids pg (eid :: eids) all_results e st =
  match fetch_single_eid pg eid e st with
  | (OK data, st1) => for_eids pg eids (all_results ++ data) e st1
  | (Raise x, st1) => (Raise x, st1)
  end.
Proof. reflexivity. Qed.

(** C8: a resource whose schedule cell is not found gives the empty list
    and the batch goes on as if the resource were not in the list; in a
    cell that is found, an anchor whose title is missing or empty is
    passed over: the scrape gives what the loop gives without it. *)
Theorem fetch_single_eid_soft_failure pg eid :
  (timeline_lane pg eid = None ->
   (forall e st, fetch_single_eid pg eid e st = (OK [], st))
   /\ (forall before after all_results e st,
         for_eids pg (before ++ eid :: after) all_results e st
         = for_eids pg (before ++ after) all_results e st))
  /\ (forall before a after,
        timeline_lane pg eid = Some (before ++ a :: after) ->
        untitled a ->
        forall e st,
          fetch_single_eid pg eid e st
          = for_events eid (room_name_text pg eid) (clock e (reads st))
              (filter has_title (before ++ after)) [] e (tick st)).
Proof.
  split.
  - intros Hlane. split.
    + intros e st. apply fetch_single_eid_missing. exact Hlane.
    + induction before as [|b before IH]; intros after all_results e st.
      * cbn [app]. rewrite for_eids_cons, (fetch_single_eid_missing pg eid e st Hlane).
        now rewrite app_nil_r.
      * cbn [app]. rewrite !for_eids_cons.
        destruct (fetch_single_eid pg b e st) as [[data|x] st1]; [apply IH|reflexivity].
  - intros before a after Hlane Ha e st.
    unfold fetch_single_eid. rewrite Hlane.
    unfold datetime_now. cbn [bind Monad_M M_bind]. fold (tick st).
    rewrite for_events_titles, (for_events_titles _ _ _ _ (filter has_title (before ++ after))).
    rewrite !titles_selected, !titles_app, (titles_cons_untitled a after Ha).
    reflexivity.
Qed.

(** Two lists of titles that agree, one by one, on the time label and the
    status give the same run of the loop. *)
Lemma for_events_labels eid name now e :
  forall ts1 ts2,
    Forall2 (fun t1 t2 => label_of t1 = label_of t2) ts1 ts2 ->
    Forall (fun t => nonempty t = true) ts1 ->
    Forall (fun t => nonempty t = true) ts2 ->
    forall results st,
      for_events eid name now (map (fun t => mk_anchor (Some t)) ts1) results e st
      = for_events eid name now (map (fun t => mk_anchor (Some t)) ts2) results e st.
Proof.
  induction 1 as [|t1 t2 ts1 ts2 Hl _ IH]; intros H1 H2 results st; [reflexivity|].
  inversion H1 as [|? ? N1 F1]; inversion H2 as [|? ? N2 F2]; subst.
  cbn [map]. rewrite !for_events_cons. cbn [title_attribute].
  destruct t1 as [|c1 t1]; [discriminate|]. destruct t2 as [|c2 t2]; [discriminate|].
  unfold label_of in Hl. cbn [bind Monad_result ret result_bind] in Hl.
  destruct (parse_title (String c1 t1)) as [[[ts ss] rn]|x];
    destruct (parse_title (String c2 t2)) as [[[ts' ss'] rn']|x'];
    cbn [result_bind] in Hl; try discriminate.
  - injection Hl as <- <-.
    destruct (parse_time_range _ ts) as [[sd ed]|y]; [|reflexivity].
    destruct (Datetime.lt sd now); apply IH; assumption.
  - injection Hl as <-. reflexivity.
Qed.

(** C10: the [Name] of every entry is the text of the resource's datagrid
    cell, or ["Unknown"] when that cell is missing; the room name that
    [parse_title] extracts plays no part: titles that agree on the time
    label and the status give the same entries. *)
Theorem fetch_single_eid_name pg eid :
  (forall e st results st',
     fetch_single_eid pg eid e st = (OK results, st') ->
     Forall (fun r => Name r = match datagrid_cell_text pg eid with
                               | Some text => text
                               | None => "Unknown"
                               end) results)
  /\ (forall td1 td2 name now results e st,
        Forall2 (fun t1 t2 => label_of t1 = label_of t2) (titles td1) (titles td2) ->
        for_events eid name now (filter has_title td1) results e st
        = for_events eid name now (filter has_title td2) results e st).
Proof.
  split.
  - intros e st results st' H.
    destruct (timeline_lane pg eid) as [td|] eqn:Hlane.
    + destruct (fetch_single_eid_result pg eid e st td results st' Hlane H) as [xs [_ ->]].
      apply Forall_forall. intros r Hr. apply in_map_iff in Hr as [x [<- _]].
      reflexivity.
    + rewrite (fetch_single_eid_missing pg eid e st Hlane) in H. injection H as <- _.
      constructor.
  - intros td1 td2 name now results e st Hl.
    rewrite for_events_titles, (for_events_titles _ _ _ _ (filter has_title td2)).
    rewrite !titles_selected.
    apply for_events_labels; [exact Hl|apply titles_nonempty|apply titles_nonempty].
Qed.

Example same_labels_same_entries :
  label_of "1:00pm - East wing - Available" = label_of "1:00pm - 2nd Floor - Available"
  /\ for_events "1001" "2121" sample_now
       [mk_anchor (Some "1:00pm - East wing - Available")] [] (sample_env "1001")
       sample_state
     = for_events "1001" "2121" sample_now
         [mk_anchor (Some "1:00pm - 2nd Floor - Available")] [] (sample_env "1001")
         sample_state.
Proof. split; reflexivity. Qed.

Example room_name_of_title_unused :
  parse_title "1:00pm - 2:00pm - Available" = OK ("1:00pm", "Available", "2:00pm")
  /\ fst (fetch_single_eid sample_page "1001" (sample_env "1001") sample_state)
     = OK [ mk_event "1001" "2121" "1:00pm" "Available";
            mk_event "1001" "2121" "11:00pm - 1:00am" "Unavailable" ].
Proof. split; reflexivity. Qed.

(** ** The batch and the trigger endpoint *)

(** When the batch returns, its result is the concatenation of what the
    resources gave, in the order of the list. *)
Lemma for_eids_result pg e :
  forall eids all_results st out st',
    for_eids pg eids all_results e st = (OK out, st') ->
    exists rest, batch_from pg e st eids rest st' /\ out = all_results ++ List.concat rest.
Proof.
  induction eids as [|eid eids IH]; intros all_results st out st' H.
  - injection H as <- <-. exists []. split; [constructor|]. simpl. now rewrite app_nil_r.
  - rewrite for_eids_cons in H.
    destruct (fetch_single_eid pg eid e st) as [[data|x] st1] eqn:Hf; [|discriminate].
    destruct (IH _ _ _ _ H) as [rest [Hb ->]].
    exists (data :: rest). split; [econstructor; eassumption|].
    cbn [List.concat]. now rewrite app_assoc.
Qed.

(** A resource that the page does not show leaves the batch as it is
    without it. *)
Example fetch_all_missing_resource :
  timeline_lane sample_page "7777" = None
  /\ fst (fetch_all (sample_env (String.append "7777" (String "010" "1001"))) sample_state)
     = fst (fetch_all (sample_env "1001") sample_state).
Proof. split; reflexivity. Qed.

(** Scraping writes no file. *)
Lemma for_events_files eid name now e :
  forall evs results st,
    files (snd (for_events eid name now evs results e st)) = files st.
Proof.
  induction evs as [|a evs IH]; intros results st; [reflexivity|].
  rewrite for_events_cons.
  destruct (title_attribute a) as [[|c t]|]; try apply IH.
  destruct (parse_title (String c t)) as [[[ts ss] rn]|x]; [|reflexivity].
  destruct (parse_time_range _ ts) as [[sd ed]|x]; [|reflexivity].
  destruct (Datetime.lt sd _); rewrite IH; reflexivity.
Qed.

Lemma fetch_single_eid_files pg eid e st :
  files (snd (fetch_single_eid pg eid e st)) = files st.
Proof.
  unfold fetch_single_eid. destruct (timeline_lane pg eid) as [td|]; [|reflexivity].
  unfold datetime_now. cbn [bind Monad_M M_bind]. rewrite for_events_files. reflexivity.
Qed.

Lemma for_eids_files pg e :
  forall eids all_results st,
    files (snd (for_eids pg eids all_results e st)) = files st.
Proof.
  induction eids as [|eid eids IH]; intros all_results st; [reflexivity|].
  rewrite for_eids_cons. pose proof (fetch_single_eid_files pg eid e st) as H.
  destruct (fetch_single_eid pg eid e st) as [[data|x] st1]; cbn [snd] in H.
  - rewrite IH. exact H.
  - exact H.
Qed.

Lemma fetch_all_files e st : files (snd (fetch_all e st)) = files st.
Proof.
  unfold fetch_all, read_eids, open_page. cbn [bind Monad_M]. unfold M_bind.
  destruct (eid_file e) as [content|]; [|reflexivity].
  destruct (browser e) as [pg|x]; [|reflexivity].
  apply for_eids_files.
Qed.

(** C7: [run_fetch] always answers with status code 200.  The answer is
    the success payload, with the number of entries of the batch, exactly
    when [fetch_all] and then [save_json] return, and [record.json] then
    holds the document of the batch.  Otherwise the answer is the error
    payload with the exception that was raised.  When it is [fetch_all]
    that raises, whatever had been gathered, or [open] in [save_json], no
    file has changed; when a write of [save_json] raises, [record.json]
    holds what that write left in it. *)
Theorem run_fetch_response e st :
  exists resp st',
    run_fetch e st = (OK resp, st')
    /\ status_code resp = 200
    /\ ((exists n, json resp = Success n)
        <-> exists data st1,
              fetch_all e st = (OK data, st1)
              /\ fst (save_json data record_json e st1) = OK tt)
    /\ match fst (fetch_all e st) with
       | OK data =>
           match disk e record_json (Json.json_dump data) with
           | Written =>
               json resp = Success (List.length data)
               /\ files st' record_json = Some (Json.json_dump data)
           | OpenFails x => json resp = Error x /\ files st' = files st
           | WriteFails x remains =>
               json resp = Error x /\ files st' record_json = Some remains
           end
       | Raise x => json resp = Error x /\ files st' = files st
       end.
Proof.
  unfold run_fetch, try_except. cbn [bind Monad_M ret]. unfold M_bind, M_ret.
  pose proof (fetch_all_files e st) as Hfiles.
  destruct (fetch_all e st) as [[data|x] st1]; cbn [fst snd] in *.
  - unfold save_json.
    destruct (disk e record_json (Json.json_dump data)) as [|x|x remains] eqn:Ed;
      eexists _, _; (split; [reflexivity|]);
      cbn [status_code json jsonify files set_file]; (split; [reflexivity|]); split.
    + split; [|eauto]. intros _. exists data, st1.
      split; [reflexivity|]. rewrite Ed. reflexivity.
    + split; [reflexivity|]. now rewrite String.eqb_refl.
    + split; [intros [n Hn]; discriminate Hn|].
      intros [d [s1 [Hd Hs]]]. injection Hd as <- <-. rewrite Ed in Hs. discriminate Hs.
    + split; [reflexivity|exact Hfiles].
    + split; [intros [n Hn]; discriminate Hn|].
      intros [d [s1 [Hd Hs]]]. injection Hd as <- <-. rewrite Ed in Hs. discriminate Hs.
    + split; [reflexivity|]. now rewrite String.eqb_refl.
  - eexists _, _. split; [reflexivity|]. cbn [status_code json jsonify].
    split; [reflexivity|]. split; [|split; [reflexivity|exact Hfiles]].
    split; [intros [n Hn]; discriminate Hn|].
    intros [d [s1 [Hd _]]]. discriminate Hd.
Qed.

(** C7, as stated, fails when the exception comes from the write itself:
    the answer is the error, and yet [record.json] has lost what it held
    and holds the beginning of the new document, the first entry of the
    batch included. *)
Lemma run_fetch_failed_write_saves_part :
  let e := mk_env (fun _ => sample_now) (Some "1001") (OK sample_page) sample_full_disk in
  let first := mk_event "1001" "2121" "1:00pm" "Available" in
  let second := mk_event "1001" "2121" "11:00pm - 1:00am" "Unavailable" in
  let remains := substring 0 120 (Json.json_dump [first; second]) in
  fst (fetch_all e sample_state) = OK [first; second]
  /\ fst (run_fetch e sample_state)
     = OK (mk_response 200 (Error (OSError "[Errno 28] No space left on device")))
  /\ files (snd (run_fetch e sample_state)) record_json = Some remains
  /\ files (snd (run_fetch e sample_state)) record_json <> files sample_state record_json
  /\ contains (Json.dump_event first EmptyString) remains = true.
Proof.
  cbv zeta. split; [reflexivity|]. split; [reflexivity|]. split; [reflexivity|].
  split; [|reflexivity]. intros H. vm_compute in H. discriminate H.
Qed.

(** A failure on the second resource, after two entries have been
    gathered from the first: the answer is the error, and [record.json]
    still holds what it held. *)
Example run_fetch_mid_batch_failure :
  fst (fetch_single_eid sample_page "1001" (sample_env sample_eids) sample_state)
  = OK [ mk_event "1001" "2121" "1:00pm" "Available";
         mk_event "1001" "2121" "11:00pm - 1:00am" "Unavailable" ]
  /\ fst (run_fetch (sample_env sample_eids) sample_state)
     = OK (mk_response 200 (Error (ValueError_no_time "Closed")))
  /\ files (snd (run_fetch (sample_env sample_eids) sample_state)) record_json
     = Some (Json.json_dump [mk_event "0" "old" "9:00am" "Available"]).
Proof. repeat split; reflexivity. Qed.

Example run_fetch_success :
  fst (run_fetch (sample_env "1001") sample_state)
  = OK (mk_response 200 (Success 2))
  /\ files (snd (run_fetch (sample_env "1001") sample_state)) record_json
     = Some (Json.json_dump
               [ mk_event "1001" "2121" "1:00pm" "Available";
                 mk_event "1001" "2121" "11:00pm - 1:00am" "Unavailable" ]).
Proof. split; reflexivity. Qed.

(* ================================================================== *)
(** * Further properties of the code *)
(* ================================================================== *)

(** ** Splitting and joining *)

Lemma join_cons sep c seg segs :
  PyStr.join sep (String c seg :: segs) = String c (PyStr.join sep (seg :: segs)).
Proof. unfold PyStr.join. destruct segs; reflexivity. Qed.

Lemma join_empty_cons sep seg segs :
  PyStr.join sep (EmptyString :: seg :: segs)
  = String.append sep (PyStr.join sep (seg :: segs)).
Proof. reflexivity. Qed.

Lemma prefix_skip sep :
  forall s, String.prefix sep s = true ->
            s = String.append sep (string_skip (String.length sep) s)
            /\ (String.length sep <= String.length s)%nat.
Proof.
  induction sep as [|a sep IH]; intros s H.
  - split; [reflexivity|simpl; lia].
  - destruct s as [|b s]; [discriminate|]. simpl in H.
    destruct (ascii_dec a b) as [->|]; [|discriminate].
    destruct (IH s H) as [E L]. split; [simpl; now rewrite <- E|simpl; lia].
Qed.

(** Joining the segments of a string gives the string back. *)
Lemma split_from_join sep :
  sep <> EmptyString ->
  forall s skip,
    (skip <= String.length s)%nat ->
    PyStr.join sep (PyStr.split_from sep skip s) = string_skip skip s.
Proof.
  intros Hsep. induction s as [|c s IH]; intros skip Hskip.
  - destruct skip; [reflexivity|simpl in Hskip; lia].
  - cbn [PyStr.split_from]. destruct skip as [|k].
    + destruct (String.prefix sep (String c s)) eqn:Hp.
      * destruct (prefix_skip sep _ Hp) as [E L].
        destruct sep as [|a sep']; [contradiction|].
        cbn [String.length Nat.pred string_skip] in *.
        pose proof (split_from_not_nil (String a sep') s (String.length sep')) as Hne.
        destruct (PyStr.split_from (String a sep') (String.length sep') s)
          as [|seg segs] eqn:Hsplit; [contradiction|].
        rewrite join_empty_cons, <- Hsplit, IH by lia. now rewrite <- E.
      * pose proof (split_from_not_nil sep s 0) as Hne.
        destruct (PyStr.split_from sep 0 s) as [|seg segs] eqn:Hsplit; [contradiction|].
        rewrite join_cons, <- Hsplit, IH by lia. reflexivity.
    + apply IH. simpl in Hskip. lia.
Qed.

Lemma split_join sep s :
  sep <> EmptyString -> PyStr.join sep (PyStr.split sep s) = s.
Proof. intros Hsep. apply (split_from_join sep Hsep s 0). lia. Qed.

(** A string without the separator is its own single segment. *)
Lemma split_not_contains sep :
  forall s, contains sep s = false -> PyStr.split sep s = [s].
Proof.
  unfold PyStr.split. induction s as [|c s IH]; intros Hno; [reflexivity|].
  cbn [PyStr.split_from]. cbn [contains] in Hno.
  apply orb_false_iff in Hno as [Hp Hs]. rewrite Hp, IH by exact Hs. reflexivity.
Qed.

Lemma join_app sep l1 l2 :
  l1 <> [] -> l2 <> [] ->
  PyStr.join sep (l1 ++ l2)
  = String.append (PyStr.join sep l1) (String.append sep (PyStr.join sep l2)).
Proof.
  intros H1 H2. induction l1 as [|x l1 IH]; [contradiction|].
  destruct l1 as [|y l1].
  - destruct l2; [contradiction|reflexivity].
  - change (PyStr.join sep ((x :: y :: l1) ++ l2))
      with (String.append x (String.append sep (PyStr.join sep ((y :: l1) ++ l2)))).
    rewrite IH by discriminate.
    change (PyStr.join sep (x :: y :: l1))
      with (String.append x (String.append sep (PyStr.join sep (y :: l1)))).
    generalize (PyStr.join sep (y :: l1)) (String.append sep (PyStr.join sep l2)).
    intros u v. clear. 
    assert (A : forall a b c, String.append (String.append a b) c
                              = String.append a (String.append b c)).
    { induction a as [|ch a IHa]; intros b c; simpl; [reflexivity|now rewrite IHa]. }
    now rewrite !A.
Qed.

Lemma last_two {A : Type} (dflt : A) :
  forall l, (2 <= List.length l)%nat ->
            l = firstn (List.length l - 2) l
                ++ [nth (List.length l - 2) l dflt; last l dflt].
Proof.
  induction l as [|x l IH]; intros Hl; [simpl in Hl; lia|].
  destruct l as [|y [|z l]].
  - simpl in Hl. lia.
  - reflexivity.
  - replace (List.length (x :: y :: z :: l) - 2)%nat
      with (S (List.length (y :: z :: l) - 2)) by (simpl; lia).
    set (k := (List.length (y :: z :: l) - 2)%nat) in *.
    rewrite firstn_cons, <- app_comm_cons.
    change (nth (S k) (x :: y :: z :: l) dflt) with (nth k (y :: z :: l) dflt).
    change (last (x :: y :: z :: l) dflt) with (last (y :: z :: l) dflt).
    rewrite <- IH by (simpl; lia). reflexivity.
Qed.

Lemma map_fixed {A : Type} (f : A -> A) l :
  Forall (fun x => f x = x) l -> map f l = l.
Proof. induction 1 as [|x l Hx _ IH]; simpl; [reflexivity|now rewrite Hx, IH]. Qed.

(** ** The title parser, further *)

(** X1: when no segment of the title has whitespace around it,
    [parse_title] loses nothing: joining what it returns with [" - "]
    gives the title back (time label, room name and status for three
    segments or more; time label and status for two; and for a single
    segment the title is both the time label and the status). *)
Theorem parse_title_lossless title time_str status_str room_name :
  Forall (fun seg => PyStr.strip seg = seg) (PyStr.split " - " title) ->
  parse_title title = OK (time_str, status_str, room_name) ->
  match List.length (PyStr.split " - " title) with
  | 1%nat => time_str = title /\ status_str = title /\ room_name = "Unknown"
  | 2%nat => PyStr.join " - " [time_str; status_str] = title /\ room_name = "Unknown"
  | _ => PyStr.join " - " [time_str; room_name; status_str] = title
  end.
Proof.
  intros Hfix H. pose proof (parse_title_eq title) as E. cbv zeta in E.
  rewrite E in H. clear E.
  assert (Hj : PyStr.join " - " (PyStr.split " - " title) = title)
    by (apply split_join; discriminate).
  pose proof (split_from_not_nil " - " title 0) as Hne.
  change (PyStr.split_from " - " 0 title) with (PyStr.split " - " title) in Hne.
  revert Hfix H Hj Hne. generalize (PyStr.split " - " title) as segs.
  intros segs Hfix H Hj Hne.
  destruct segs as [|x [|y [|z more]]]; [contradiction| | |].
  - cbn [List.length Nat.ltb Nat.leb hd last] in H. injection H as <- <- <-.
    pose proof (Forall_inv Hfix) as Hx. cbn beta in Hx.
    change (x = title) in Hj. cbn [List.length]. rewrite Hx. auto.
  - cbn [List.length Nat.ltb Nat.leb hd last] in H. injection H as <- <- <-.
    pose proof (Forall_inv Hfix) as Hx.
    pose proof (Forall_inv (Forall_inv_tail Hfix)) as Hy. cbn beta in Hx, Hy.
    cbn [List.length]. rewrite Hx, Hy. auto.
  - cbn [List.length]. remember (x :: y :: z :: more) as l eqn:Hl.
    assert (Hlen : (2 < List.length l)%nat) by (rewrite Hl; simpl; lia).
    replace (2 <? List.length l)%nat with true in H
      by (symmetry; apply Nat.ltb_lt; exact Hlen).
    injection H as <- <- <-.
    assert (Hnth : PyStr.strip (nth (List.length l - 2) l EmptyString)
                   = nth (List.length l - 2) l EmptyString).
    { rewrite Forall_forall in Hfix. apply Hfix, nth_In. lia. }
    assert (Hlast : PyStr.strip (last l EmptyString) = last l EmptyString).
    { rewrite Forall_forall in Hfix. apply Hfix.
      rewrite (last_two EmptyString l) at 2 by lia.
      apply in_or_app. right. simpl. auto. }
    rewrite Hnth, Hlast, map_fixed.
    2:{ rewrite Forall_forall in *. intros seg Hin. apply Hfix.
        rewrite <- (firstn_skipn (List.length l - 2) l).
        apply in_or_app. now left. }
    rewrite <- Hj.
    transitivity (PyStr.join " - "
                    (firstn (List.length l - 2) l
                     ++ [nth (List.length l - 2) l EmptyString; last l EmptyString]));
      [|f_equal; symmetry; apply last_two; lia].
    rewrite join_app; [reflexivity| |discriminate].
    intros Hnil. apply (f_equal (@List.length string)) in Hnil.
    rewrite length_firstn in Hnil. simpl in Hnil. lia.
Qed.

Lemma parse_title_lossless_witness :
  PyStr.join " - " ["11:00pm - 1:00am"; "Room 7"; "Unavailable"]
  = "11:00pm - 1:00am - Room 7 - Unavailable".
Proof.
  assert (H1 : Forall (fun seg => PyStr.strip seg = seg)
                 (PyStr.split " - " "11:00pm - 1:00am - Room 7 - Unavailable"))
    by (change (PyStr.split " - " "11:00pm - 1:00am - Room 7 - Unavailable")
          with ["11:00pm"; "1:00am"; "Room 7"; "Unavailable"];
        repeat (constructor; [reflexivity|]); constructor).
  assert (H2 : parse_title "11:00pm - 1:00am - Room 7 - Unavailable"
               = OK ("11:00pm - 1:00am", "Unavailable", "Room 7"))
    by reflexivity.
  exact (parse_title_lossless _ _ _ _ H1 H2).
Defined.

(** X2: a title in which [" - "] does not occur comes back, stripped, as
    both the time label and the status, with the room name ["Unknown"]. *)
Theorem parse_title_no_separator title :
  contains " - " title = false ->
  parse_title title = OK (PyStr.strip title, PyStr.strip title, "Unknown").
Proof.
  intros Hno. pose proof (parse_title_eq title) as E. cbv zeta in E.
  rewrite (split_not_contains " - " title Hno) in E. exact E.
Qed.

Lemma parse_title_no_separator_witness :
  parse_title " Closed today " = OK ("Closed today", "Closed today", "Unknown").
Proof. apply (parse_title_no_separator " Closed today "). reflexivity. Defined.

(** ** Stripping *)

Lemma lstrip_head s :
  PyStr.lstrip s = EmptyString
  \/ exists c r, PyStr.lstrip s = String c r /\ PyStr.isspace c = false.
Proof.
  induction s as [|c s IH]; [now left|]. simpl.
  destruct (PyStr.isspace c) eqn:Hc; [exact IH|]. right. eauto.
Qed.

Lemma rstrip_idem s : PyStr.rstrip (PyStr.rstrip s) = PyStr.rstrip s.
Proof.
  induction s as [|c s IH]; [reflexivity|]. cbn [PyStr.rstrip].
  destruct (PyStr.rstrip s) as [|d r] eqn:Hr.
  - destruct (PyStr.isspace c) eqn:Hc; [reflexivity|].
    cbn [PyStr.rstrip]. now rewrite Hc.
  - cbn [PyStr.rstrip]. cbn [PyStr.rstrip] in IH. rewrite IH. reflexivity.
Qed.

Lemma rstrip_head c r :
  PyStr.isspace c = false -> exists r', PyStr.rstrip (String c r) = String c r'.
Proof.
  intros Hc. cbn [PyStr.rstrip]. destruct (PyStr.rstrip r); [rewrite Hc|]; eauto.
Qed.

(** Stripping twice is stripping once. *)
Lemma strip_idem s : PyStr.strip (PyStr.strip s) = PyStr.strip s.
Proof.
  unfold PyStr.strip. destruct (lstrip_head s) as [E|[c [r [E Hc]]]]; rewrite E.
  - reflexivity.
  - destruct (rstrip_head c r Hc) as [r' Er]. rewrite Er.
    cbn [PyStr.lstrip]. rewrite Hc, <- Er. apply rstrip_idem.
Qed.

(** ** Segments and the separator *)

Lemma prefix_append sep :
  forall a b, String.prefix sep a = true -> String.prefix sep (String.append a b) = true.
Proof.
  induction sep as [|x sep IH]; intros a b H;
    [destruct (String.append a b); reflexivity|].
  destruct a as [|y a]; [discriminate|]. simpl in *.
  destruct (ascii_dec x y); [apply IH; exact H|discriminate].
Qed.

Lemma contains_append_l sep :
  sep <> EmptyString ->
  forall a b, contains sep (String.append a b) = false -> contains sep a = false.
Proof.
  intros Hsep. induction a as [|c a IH]; intros b H.
  - destruct sep; [contradiction|reflexivity].
  - cbn [String.append contains] in *. apply orb_false_iff in H as [Hp Hc].
    apply orb_false_iff. split; [|exact (IH b Hc)].
    destruct (String.prefix sep (String c a)) eqn:Hpa; [|reflexivity].
    apply (prefix_append sep _ b) in Hpa. cbn [String.append] in Hpa. congruence.
Qed.

Lemma contains_lstrip sep s :
  contains sep s = false -> contains sep (PyStr.lstrip s) = false.
Proof.
  induction s as [|c s IH]; intros H; [exact H|]. cbn [PyStr.lstrip].
  destruct (PyStr.isspace c); [|exact H].
  apply IH. cbn [contains] in H. now apply orb_false_iff in H.
Qed.

Lemma rstrip_prefix s : exists w, s = String.append (PyStr.rstrip s) w.
Proof.
  induction s as [|c s [w IH]]; [now exists EmptyString|]. cbn [PyStr.rstrip].
  destruct (PyStr.rstrip s) as [|d r] eqn:Hr.
  - destruct (PyStr.isspace c).
    + now exists (String c s).
    + exists s. reflexivity.
  - exists w. cbn [String.append] in *. now f_equal.
Qed.

Lemma contains_strip sep s :
  sep <> EmptyString -> contains sep s = false -> contains sep (PyStr.strip s) = false.
Proof.
  intros Hsep H. unfold PyStr.strip. apply contains_lstrip in H.
  destruct (rstrip_prefix (PyStr.lstrip s)) as [w E]. rewrite E in H.
  exact (contains_append_l sep Hsep _ _ H).
Qed.

(** No segment of a split contains the separator. *)
Lemma split_from_segments sep :
  sep <> EmptyString ->
  forall s skip,
    (skip <= String.length s)%nat ->
    Forall (fun seg => contains sep seg = false) (PyStr.split_from sep skip s).
Proof.
  intros Hsep.
  assert (Hnil : contains sep EmptyString = false) by (destruct sep; [contradiction|reflexivity]).
  induction s as [|c s IH]; intros skip Hskip.
  - constructor; [exact Hnil|constructor].
  - cbn [PyStr.split_from]. destruct skip as [|k].
    + destruct (String.prefix sep (String c s)) eqn:Hp.
      * constructor; [exact Hnil|]. apply IH.
        destruct (prefix_skip sep _ Hp) as [_ L]. simpl in L. lia.
      * pose proof (IH 0%nat ltac:(lia)) as Hs.
        pose proof (split_from_join sep Hsep s 0 ltac:(lia)) as Hj.
        pose proof (split_from_not_nil sep s 0) as Hne.
        destruct (PyStr.split_from sep 0 s) as [|seg segs]; [contradiction|].
        -- inversion Hs as [|? ? Hseg Hsegs]; subst. constructor; [|exact Hsegs].
           cbn [contains]. rewrite Hseg, orb_false_r.
           destruct (String.prefix sep (String c seg)) eqn:Hpc; [|reflexivity].
           cbn [string_skip] in Hj.
           assert (Hpre : exists w, s = String.append seg w).
           { destruct segs as [|seg' segs'].
             - exists EmptyString. rewrite <- Hj. cbn.
               clear. induction seg as [|x seg IHs]; simpl; [reflexivity|now rewrite <- IHs].
             - eexists. rewrite <- Hj. reflexivity. }
           destruct Hpre as [w ->].
           apply (prefix_append sep _ w) in Hpc. cbn [String.append] in Hpc. congruence.
    + apply IH. simpl in Hskip. lia.
Qed.

(** X3: the status and the room name that [parse_title] returns are
    stripped, and the separator [" - "] occurs in neither. *)
Theorem parse_title_fields_clean title time_str status_str room_name :
  parse_title title = OK (time_str, status_str, room_name) ->
  PyStr.strip status_str = status_str /\ PyStr.strip room_name = room_name
  /\ contains " - " status_str = false /\ contains " - " room_name = false.
Proof.
  intros H. pose proof (parse_title_eq title) as E. cbv zeta in E. rewrite E in H.
  clear E.
  assert (Hsep : " - " <> EmptyString) by discriminate.
  pose proof (split_from_segments " - " Hsep title 0 ltac:(lia)) as Hsegs.
  pose proof (split_from_not_nil " - " title 0) as Hne.
  change (PyStr.split_from " - " 0 title) with (PyStr.split " - " title) in *.
  revert H Hsegs Hne. generalize (PyStr.split " - " title) as segs.
  intros segs H Hsegs Hne. rewrite Forall_forall in Hsegs.
  assert (Hlast : contains " - " (last segs EmptyString) = false).
  { apply Hsegs. destruct (exists_last Hne) as [l' [a ->]].
    rewrite last_last. apply in_or_app. right. simpl. auto. }
  destruct (2 <? List.length segs)%nat eqn:Hlen; injection H as <- <- <-.
  - apply Nat.ltb_lt in Hlen.
    repeat split; try apply strip_idem; apply contains_strip; try assumption.
    apply Hsegs, nth_In. lia.
  - repeat split; try apply strip_idem; try reflexivity.
    apply contains_strip; assumption.
Qed.

Lemma parse_title_fields_clean_witness :
  PyStr.strip "Open" = "Open" /\ PyStr.strip "Room 7" = "Room 7"
  /\ contains " - " "Open" = false /\ contains " - " "Room 7" = false.
Proof.
  apply (parse_title_fields_clean "1:00pm -  Room 7  - Open " "1:00pm" "Open" "Room 7").
  reflexivity.
Defined.

(** The time label is not always stripped: an empty first segment leaves
    the separator at its start. *)
Example parse_title_time_label_not_stripped :
  parse_title " - a - b - c" = OK (" - a", "c", "b").
Proof. reflexivity. Qed.

(** ** Which tokens [to_dt] accepts *)

Lemma append_nil_r s : String.append s EmptyString = s.
Proof. induction s as [|c s IH]; simpl; [reflexivity|now rewrite IH]. Qed.

Lemma append_assoc_string a b c :
  String.append (String.append a b) c = String.append a (String.append b c).
Proof. induction a as [|x a IH]; simpl; [reflexivity|now rewrite IH]. Qed.

Lemma all_in_append p a b :
  Re.all_in p (String.append a b) <-> Re.all_in p a /\ Re.all_in p b.
Proof.
  induction a as [|c a IH]; simpl; [tauto|]. rewrite IH. tauto.
Qed.

(** What white space is not. *)
Lemma isspace_other c :
  PyStr.isspace c = true ->
  PyStr.isdigit c = false /\ c <> ":"%char
  /\ PyStr.lower_char c <> "a"%char /\ PyStr.lower_char c <> "p"%char
  /\ PyStr.lower_char c <> "m"%char.
Proof.
  destruct c as [[] [] [] [] [] [] [] []]; intros H; try discriminate H;
    repeat split; try reflexivity; discriminate.
Qed.

Lemma isdigit_value c :
  PyStr.isdigit c = true ->
  exists n, In n decimal_digits /\ c = digit_char n.
Proof.
  destruct c as [[] [] [] [] [] [] [] []]; intros H; try discriminate H;
    first [ exists 0; split; [simpl; tauto|reflexivity]
          | exists 1; split; [simpl; tauto|reflexivity]
          | exists 2; split; [simpl; tauto|reflexivity]
          | exists 3; split; [simpl; tauto|reflexivity]
          | exists 4; split; [simpl; tauto|reflexivity]
          | exists 5; split; [simpl; tauto|reflexivity]
          | exists 6; split; [simpl; tauto|reflexivity]
          | exists 7; split; [simpl; tauto|reflexivity]
          | exists 8; split; [simpl; tauto|reflexivity]
          | exists 9; split; [simpl; tauto|reflexivity] ].
Qed.

Lemma digit_range_isdigit c :
  (48 <= N_of_ascii c <= 57)%N -> PyStr.isdigit c = true.
Proof.
  intros [H1 H2]. unfold PyStr.isdigit. apply andb_true_iff.
  split; apply N.leb_le; assumption.
Qed.

Lemma isdigit_not_space c : PyStr.isdigit c = true -> PyStr.isspace c = false.
Proof.
  intros H. destruct (PyStr.isspace c) eqn:Hs; [|reflexivity].
  destruct (isspace_other c Hs) as [Hd _]. congruence.
Qed.

Lemma letter_not_space c x :
  PyStr.lower_char c = x -> (x = "a" \/ x = "p" \/ x = "m")%char ->
  PyStr.isspace c = false.
Proof.
  intros E Hx. destruct (PyStr.isspace c) eqn:Hs; [|reflexivity].
  destruct (isspace_other c Hs) as [_ [_ [Ha [Hp Hm]]]].
  destruct Hx as [->|[->| ->]]; contradiction.
Qed.

(** The text that [strptime] accepts, cut into its groups. *)
Lemma strptime_words data dt :
  Datetime.strptime data = OK dt ->
  exists wI wM wp,
    data = String.append wI (String ":" (String.append wM wp))
    /\ Re.lang Datetime.re_I wI /\ Re.lang Datetime.re_M wM
    /\ Re.lang Datetime.re_p wp.
Proof.
  unfold Datetime.strptime. intros H.
  destruct (Datetime.strptime_match data) as [[[[s1 s2] s3] s4]|] eqn:Hm; [|discriminate].
  destruct s4; [|discriminate]. clear H.
  unfold Datetime.strptime_match in Hm.
  apply match_k_sound in Hm as [wI [r1 [-> [HI Hm]]]].
  apply match_k_sound in Hm as [wc [r2 [E1 [Hc Hm]]]].
  apply match_k_sound in Hm as [wM [r3 [E2 [HM Hm]]]].
  apply match_k_sound in Hm as [wp [r4 [E3 [Hp Hm]]]].
  injection Hm as <- <- <- ->. subst r3 r2. apply chr_word in Hc as ->.
  rewrite append_nil_r in E1. subst r1. exists wI, wM, wp. auto.
Qed.

(** [strptime] accepts no text that has white space in it. *)
Lemma strptime_no_space data dt :
  Datetime.strptime data = OK dt ->
  Re.all_in (fun c => negb (PyStr.isspace c)) data.
Proof.
  intros H. destruct (strptime_words data dt H) as [wI [wM [wp [-> [HI [HM Hp]]]]]].
  assert (Hdig : forall a b x, (48 <= N_of_ascii a)%N -> (N_of_ascii b <= 57)%N ->
                   Re.lang (Re.range a b) x ->
                   Re.all_in (fun c => negb (PyStr.isspace c)) x).
  { intros a b x Ha Hb Hx. apply range_bounds in Hx as [c [-> Hc]]. simpl.
    rewrite isdigit_not_space; [auto|]. apply digit_range_isdigit. lia. }
  assert (Hd : forall x, Re.lang Re.d x ->
                 Re.all_in (fun c => negb (PyStr.isspace c)) x).
  { intros x Hx. apply digit_bounds in Hx as [c [-> Hc]]. simpl.
    rewrite isdigit_not_space; [auto|]. apply digit_range_isdigit. lia. }
  assert (Hl : forall l x, (l = "a" \/ l = "p" \/ l = "m")%char ->
                 Re.lang (Re.ichr l) x ->
                 Re.all_in (fun c => negb (PyStr.isspace c)) x).
  { intros l x Hlx Hx. apply ichr_word in Hx as [c [-> Hc]]. simpl.
    rewrite (letter_not_space c l); [auto| |exact Hlx].
    rewrite Hc. destruct Hlx as [->|[->| ->]]; reflexivity. }
  apply all_in_append. split; [|split; [reflexivity|apply all_in_append; split]].
  - destruct HI as [HI|[HI|HI]].
    + destruct HI as [w1 [w2 [-> [H1 H2]]]]. apply chr_word in H1 as ->.
      apply all_in_append. split; [simpl; auto|].
      apply (Hdig "0" "2")%char; [vm_compute; discriminate|vm_compute; discriminate|exact H2].
    + destruct HI as [w1 [w2 [-> [H1 H2]]]]. apply chr_word in H1 as ->.
      apply all_in_append. split; [simpl; auto|].
      apply (Hdig "1" "9")%char; [vm_compute; discriminate|vm_compute; discriminate|exact H2].
    + apply (Hdig "1" "9")%char; [vm_compute; discriminate|vm_compute; discriminate|exact HI].
  - destruct HM as [HM|HM].
    + destruct HM as [w1 [w2 [-> [H1 H2]]]]. apply all_in_append. split.
      * apply (Hdig "0" "5")%char; [vm_compute; discriminate|vm_compute; discriminate|exact H1].
      * apply Hd; exact H2.
    + apply Hd; exact HM.
  - destruct Hp as [Hp|Hp]; destruct Hp as [w1 [w2 [-> [H1 H2]]]];
      apply all_in_append; split;
      (eapply Hl; [|eassumption]); auto.
Qed.

Lemma rstrip_append_fixed v :
  PyStr.rstrip v = v -> v <> EmptyString ->
  forall u, PyStr.rstrip (String.append u v) = String.append u v.
Proof.
  intros Hv Hne. induction u as [|x u IH]; [exact Hv|].
  cbn [String.append PyStr.rstrip]. rewrite IH.
  destruct (String.append u v) eqn:E; [|reflexivity].
  destruct u; [simpl in E; contradiction|discriminate].
Qed.

Lemma token_check_all :
  forallb (fun d1 =>
    forallb (fun d2 =>
      forallb (fun a =>
        forallb (fun b =>
          token_check d1 d2 a b AM && token_check d1 d2 a b PM)
          decimal_digits) decimal_digits)
      (None :: map Some decimal_digits)) decimal_digits = true.
Proof. vm_compute. reflexivity. Qed.

Lemma token_check_holds d1 d2 a b p :
  In d1 decimal_digits ->
  match d2 with Some d => In d decimal_digits | None => True end ->
  In a decimal_digits -> In b decimal_digits ->
  token_check d1 d2 a b p = true.
Proof.
  intros H1 H2 Ha Hb. pose proof token_check_all as H.
  rewrite forallb_forall in H. specialize (H d1 H1).
  rewrite forallb_forall in H. specialize (H d2).
  assert (Hin : In d2 (None :: map Some decimal_digits)).
  { destruct d2 as [d|]; [right; apply in_map; exact H2|now left]. }
  specialize (H Hin). rewrite forallb_forall in H. specialize (H a Ha).
  rewrite forallb_forall in H. specialize (H b Hb).
  apply andb_true_iff in H as [Ham Hpm]. destruct p; assumption.
Qed.

(** A token without white space that [strptime] accepts is a well-formed
    clock text. *)
Lemma token_text_accepted d1 d2 a b p dt :
  In d1 decimal_digits ->
  match d2 with Some d => In d decimal_digits | None => True end ->
  In a decimal_digits -> In b decimal_digits ->
  Datetime.strptime (PyStr.strip (token_text d1 d2 a b p)) = OK dt ->
  exists h m, clock_token (token_text d1 d2 a b p) h m.
Proof.
  intros H1 H2 Ha Hb Hs. pose proof (token_check_holds d1 d2 a b p H1 H2 Ha Hb) as Hc.
  unfold token_check in Hc. rewrite Hs in Hc.
  repeat (apply andb_true_iff in Hc as [Hc ?]).
  apply String.eqb_eq in H. apply Z.leb_le in Hc, H3, H0.
  eexists _, _. eexists _, _, p. repeat split; try eassumption; try reflexivity.
  unfold decimal_digits in Ha, Hb. apply in_map_iff in Ha as [na [<- _]].
  apply in_map_iff in Hb as [nb [<- _]]. lia.
Qed.

(** The shape of the tokens: the words of the pattern. *)
Lemma time_re_shape tok :
  Re.lang time_re tok ->
  exists c1 hd a b ws x,
    tok = String c1 (String.append hd (String ":" (String a (String b
            (String.append ws (String x (String "m" EmptyString)))))))
    /\ PyStr.isdigit c1 = true
    /\ (hd = EmptyString
        \/ exists c2, PyStr.isdigit c2 = true /\ hd = String c2 EmptyString)
    /\ PyStr.isdigit a = true /\ PyStr.isdigit b = true
    /\ Re.all_in PyStr.isspace ws /\ (x = "a" \/ x = "p")%char.
Proof.
  intros [hd [r1 [-> [[Hlen Hhd] [wc [r2 [-> [Hc [mm [r3 [-> [[Hlen2 Hmm]
            [ws [ap [-> [Hws Hap]]]]]]]]]]]]]]]].
  apply chr_word in Hc as ->.
  destruct mm as [|a [|b [|? ?]]]; simpl in Hlen2; try lia.
  destruct Hmm as [Ha [Hb _]].
  assert (Hx : exists x, ap = String x (String "m" EmptyString)
                         /\ (x = "a" \/ x = "p")%char).
  { destruct Hap as [Hap|Hap]; destruct Hap as [w1 [w2 [-> [H1 H2]]]];
      apply chr_word in H1 as ->; apply chr_word in H2 as ->.
    - exists "a"%char. auto.
    - exists "p"%char. auto. }
  destruct Hx as [x [-> Hx]].
  destruct hd as [|c1 [|c2 [|? ?]]]; simpl in Hlen; try lia.
  - destruct Hhd as [H1 _]. exists c1, EmptyString, a, b, ws, x.
    repeat split; auto.
  - destruct Hhd as [H1 [H2 _]]. exists c1, (String c2 EmptyString), a, b, ws, x.
    repeat split; eauto.
Qed.

Lemma strip_fixed c r v :
  PyStr.isspace c = false -> PyStr.rstrip v = v -> v <> EmptyString ->
  PyStr.strip (String c (String.append r v)) = String c (String.append r v).
Proof.
  intros Hc Hv Hne. unfold PyStr.strip. cbn [PyStr.lstrip]. rewrite Hc.
  apply (rstrip_append_fixed v Hv Hne (String c r)).
Qed.

Lemma token_accepted_well_formed today tok dt :
  Re.lang time_re tok -> to_dt today tok = OK dt ->
  exists h m, clock_token tok h m.
Proof.
  intros Hlang Hdt. unfold to_dt in Hdt. cbn [bind Monad_result ret result_bind] in Hdt.
  destruct (Datetime.strptime (PyStr.strip tok)) as [dt0|] eqn:Hs; [|discriminate].
  clear Hdt.
  destruct (time_re_shape tok Hlang)
    as [c1 [hd [a [b [ws [x [-> [Hc1 [Hhd [Ha [Hb [Hws Hx]]]]]]]]]]]].
  set (v := String x (String "m" EmptyString)) in *.
  set (colon := String ":" (String a (String b EmptyString))).
  assert (E : String c1 (String.append hd (String ":" (String a (String b (String.append ws v)))))
              = String c1 (String.append (String.append hd (String.append colon ws)) v)).
  { rewrite !append_assoc_string. reflexivity. }
  assert (Hv : PyStr.rstrip v = v) by (destruct Hx as [-> | ->]; reflexivity).
  (* the token is stripped already, so it holds no white space *)
  pose proof Hs as Hno. rewrite E, strip_fixed in Hno;
    [|apply isdigit_not_space; exact Hc1|exact Hv|discriminate].
  apply strptime_no_space in Hno. cbn [Re.all_in] in Hno. destruct Hno as [_ Hno].
  apply all_in_append in Hno as [Hno _]. apply all_in_append in Hno as [_ Hno].
  apply all_in_append in Hno as [_ Hno].
  assert (ws = EmptyString) as ->.
  { destruct ws as [|w ws]; [reflexivity|]. simpl in Hws, Hno.
    destruct Hws as [Hw _]. destruct Hno as [Hn _]. rewrite Hw in Hn. discriminate. }
  (* and is one of the texts that have been checked *)
  clear E Hno Hws. cbn [String.append] in *.
  destruct (isdigit_value c1 Hc1) as [n1 [Hn1 ->]].
  destruct (isdigit_value a Ha) as [na [Hna ->]].
  destruct (isdigit_value b Hb) as [nb [Hnb ->]].
  assert (Hp : exists p, v = meridiem_text p).
  { destruct Hx as [-> | ->]; [exists AM|exists PM]; reflexivity. }
  destruct Hp as [p Hp]. rewrite Hp in *.
  destruct Hhd as [-> | [c2 [Hc2 ->]]].
  - apply (token_text_accepted n1 None na nb p dt0); auto.
  - destruct (isdigit_value c2 Hc2) as [n2 [Hn2 ->]].
    apply (token_text_accepted n1 (Some n2) na nb p dt0); auto.
Qed.

(** X4: a token of ASCII characters found in a label is converted by
    [to_dt] if and only if it is a well-formed 12-hour clock text: an
    hour from 1 to 12, a colon, minutes from 00 to 59, and [am] or [pm]
    with no white space before it.  Every other such token that the
    pattern finds makes [to_dt] raise. *)
Theorem to_dt_accepts_iff_well_formed today time_str tok :
  In tok (full_times time_str) ->
  Re.all_in is_ascii tok ->
  (exists dt, to_dt today tok = OK dt) <-> (exists h m, clock_token tok h m).
Proof.
  intros Hin _. pose proof (full_times_words time_str) as Hw.
  rewrite Forall_forall in Hw. specialize (Hw tok Hin). split.
  - intros [dt Hdt]. exact (token_accepted_well_formed today tok dt Hw Hdt).
  - intros [h [m Hc]]. eexists. exact (to_dt_clock_token today tok h m Hc).
Qed.

Lemma to_dt_accepts_iff_well_formed_witness :
  (exists dt, to_dt 739581 "8:15 pm" = OK dt) <-> (exists h m, clock_token "8:15 pm" h m).
Proof.
  apply (to_dt_accepts_iff_well_formed 739581 "from 8:15 PM on" "8:15 pm").
  - vm_compute. left. reflexivity.
  - repeat split.
Defined.

(** ** The dates and the length of the range *)

Lemma on_day_next_hour today dt dt' :
  on_day today dt ->
  Datetime.add dt (Datetime.timedelta_new 0 1 0 0 0) = OK dt' ->
  on_day today dt' \/ on_day (today + 1) dt'.
Proof.
  intros Hd E. destruct (add_us _ _ _ E) as [Hus [Hr _]]. rewrite one_hour_us in Hus.
  pose proof (on_day_in_range _ _ Hd) as Hr0.
  destruct dt as [o h m s us]. unfold on_day in Hd.
  cbn [Datetime.ordinal Datetime.hour Datetime.minute Datetime.second
         Datetime.microsecond] in Hd.
  destruct Hd as [-> [Hh [Hm [-> ->]]]].
  destruct (Z.eq_dec h 23) as [->|Hne].
  - right. assert (dt' = Datetime.mk_datetime (today + 1) 0 m 0 0) as ->.
    { apply to_us_inj; [exact Hr|apply (on_day_in_range (today + 1)), mk_on_day; lia|].
      rewrite Hus. unfold Datetime.to_us. simpl. lia. }
    apply mk_on_day; lia.
  - left. assert (dt' = Datetime.mk_datetime today (h + 1) m 0 0) as ->.
    { apply to_us_inj; [exact Hr|apply (on_day_in_range today), mk_on_day; lia|].
      rewrite Hus. unfold Datetime.to_us. simpl. lia. }
    apply mk_on_day; lia.
Qed.

Lemma on_day_next_day today dt dt' :
  on_day today dt ->
  Datetime.add dt (Datetime.timedelta_new 1 0 0 0 0) = OK dt' ->
  on_day (today + 1) dt'.
Proof.
  intros Hd E. destruct (add_us _ _ _ E) as [Hus [Hr _]]. rewrite one_day_us in Hus.
  destruct dt as [o h m s us]. unfold on_day in Hd.
  cbn [Datetime.ordinal Datetime.hour Datetime.minute Datetime.second
         Datetime.microsecond] in Hd.
  destruct Hd as [-> [Hh [Hm [-> ->]]]].
  assert (dt' = Datetime.mk_datetime (today + 1) h m 0 0) as ->.
  { apply to_us_inj; [exact Hr|apply (on_day_in_range (today + 1)), mk_on_day; lia|].
    rewrite Hus. unfold Datetime.to_us. simpl. lia. }
  apply mk_on_day; lia.
Qed.

(** X5: whenever [parse_time_range] returns, [start] is on the current
    date and [end] is on the current date or on the next one, and both
    are whole minutes: their seconds and microseconds are zero. *)
Theorem parse_time_range_on_days today time_str start_dt end_dt :
  parse_time_range today time_str = OK (start_dt, end_dt) ->
  on_day today start_dt /\ (on_day today end_dt \/ on_day (today + 1) end_dt).
Proof.
  intros H. destruct (full_times time_str) as [|tok1 [|tok2 more]] eqn:Htok.
  - rewrite (parse_time_range_none today _ Htok) in H. discriminate.
  - rewrite (parse_time_range_one today _ _ Htok) in H.
    destruct (to_dt today tok1) as [s|] eqn:E1; run_result H; [|discriminate].
    destruct (Datetime.add s _) as [e|] eqn:E2; run_result H; [|discriminate].
    injection H as <- <-. apply to_dt_on_day in E1. split; [exact E1|].
    exact (on_day_next_hour today s e E1 E2).
  - rewrite (parse_time_range_two today _ _ _ _ Htok) in H.
    destruct (to_dt today tok1) as [s|] eqn:E1; run_result H; [|discriminate].
    destruct (to_dt today tok2) as [s2|] eqn:E2; run_result H; [|discriminate].
    apply to_dt_on_day in E1, E2.
    destruct (Datetime.le s2 s).
    + destruct (Datetime.add s2 _) as [e|] eqn:E3; run_result H; [|discriminate].
      injection H as <- <-. split; [exact E1|]. right.
      exact (on_day_next_day today s2 e E2 E3).
    + injection H as <- <-. auto.
Qed.

Lemma parse_time_range_on_days_witness :
  on_day 739581 (Datetime.mk_datetime 739581 23 30 0 0)
  /\ (on_day 739581 (Datetime.mk_datetime 739582 0 30 0 0)
      \/ on_day (739581 + 1) (Datetime.mk_datetime 739582 0 30 0 0)).
Proof.
  apply (parse_time_range_on_days 739581 "11:30pm"). reflexivity.
Defined.

(** X6: with two well-formed tokens the range that [parse_time_range]
    returns lasts the difference of the two clock times taken modulo 24
    hours, a difference of zero counting as 24 hours. *)
Theorem parse_time_range_duration today time_str tok1 tok2 more h1 m1 h2 m2
  start_dt end_dt :
  full_times time_str = tok1 :: tok2 :: more ->
  clock_token tok1 h1 m1 ->
  clock_token tok2 h2 m2 ->
  parse_time_range today time_str = OK (start_dt, end_dt) ->
  let d := ((h2 * 60 + m2) - (h1 * 60 + m1)) mod 1440 in
  Datetime.to_us end_dt - Datetime.to_us start_dt
  = 60000000 * (if d =? 0 then 1440 else d).
Proof.
  intros Htok H1 H2 H d.
  destruct (clock_token_range _ _ _ H1) as [Hh1 Hm1].
  destruct (clock_token_range _ _ _ H2) as [Hh2 Hm2].
  rewrite (parse_time_range_two today _ _ _ _ Htok) in H.
  rewrite (to_dt_clock_token today _ _ _ H1), (to_dt_clock_token today _ _ _ H2) in H.
  run_result H.
  pose proof (on_day_in_range _ _ (mk_on_day today h1 m1 Hh1 Hm1)) as R1.
  pose proof (on_day_in_range _ _ (mk_on_day today h2 m2 Hh2 Hm2)) as R2.
  destruct (Datetime.le _ _) eqn:Hle.
  - destruct (Datetime.add _ _) as [e|] eqn:E3; run_result H; [|discriminate].
    injection H as <- <-. apply (le_to_us _ _ R2 R1) in Hle.
    destruct (add_us _ _ _ E3) as [Hus _]. rewrite one_day_us in Hus. rewrite Hus.
    clear Hus E3. unfold Datetime.to_us in *.
    cbn [Datetime.ordinal Datetime.hour Datetime.minute Datetime.second
           Datetime.microsecond] in *.
    subst d. set (D := h2 * 60 + m2 - (h1 * 60 + m1)) in *.
    assert (HD : -1440 < D <= 0) by (unfold D; lia).
    destruct (Z.eq_dec D 0) as [E0|E0].
    + rewrite E0. change (0 mod 1440 =? 0) with true. cbv iota. unfold D in E0. lia.
    + assert (Em : D mod 1440 = D + 1440)
        by (symmetry; apply (Z.mod_unique D 1440 (-1)); lia).
      rewrite Em. destruct (Z.eqb_spec (D + 1440) 0); unfold D in *; lia.
  - injection H as <- <-.
    assert (Hlt : Datetime.to_us (Datetime.mk_datetime today h1 m1 0 0)
                  < Datetime.to_us (Datetime.mk_datetime today h2 m2 0 0)).
    { destruct (Z.lt_ge_cases (Datetime.to_us (Datetime.mk_datetime today h1 m1 0 0))
                  (Datetime.to_us (Datetime.mk_datetime today h2 m2 0 0))) as [Hc|Hc];
        [exact Hc|].
      apply (le_to_us _ _ R2 R1) in Hc. congruence. }
    unfold Datetime.to_us in *.
    cbn [Datetime.ordinal Datetime.hour Datetime.minute Datetime.second
           Datetime.microsecond] in *.
    subst d. set (D := h2 * 60 + m2 - (h1 * 60 + m1)) in *.
    assert (HD : 0 < D < 1440) by (unfold D; lia).
    rewrite (Z.mod_small D 1440) by lia.
    destruct (Z.eqb_spec D 0); unfold D in *; lia.
Qed.

Lemma parse_time_range_duration_witness :
  Datetime.to_us (Datetime.mk_datetime 739582 13 0 0 0)
  - Datetime.to_us (Datetime.mk_datetime 739581 13 0 0 0)
  = 60000000 * 1440.
Proof.
  apply (parse_time_range_duration 739581 "1:00pm to 1:00PM" "1:00pm" "1:00pm" []
           13 0 13 0).
  - reflexivity.
  - exists false, 1, PM. repeat split; try lia; reflexivity.
  - exists false, 1, PM. repeat split; try lia; reflexivity.
  - reflexivity.
Defined.

(** ** Clock texts in labels and titles *)

Lemma clock_text_check_all :
  forallb (fun h12 =>
    forallb (fun m =>
      forallb (fun pad =>
        clock_text_check pad h12 m AM && clock_text_check pad h12 m PM)
        [true; false]) clock_minutes) clock_hours = true.
Proof. vm_compute. reflexivity. Qed.

Lemma clock_token_facts tok h m :
  clock_token tok h m ->
  PyStr.lower tok = tok /\ PyStr.strip tok = tok
  /\ contains " - " (String.append tok " -") = false
  /\ full_times tok = [tok].
Proof.
  intros [pad [h12 [p [Hh [Hm [-> _]]]]]].
  pose proof clock_text_check_all as H.
  rewrite forallb_forall in H. specialize (H h12).
  assert (Hin : In h12 clock_hours).
  { unfold clock_hours. rewrite <- (Z2Nat.id h12) by lia. apply in_map, in_seq. lia. }
  specialize (H Hin). rewrite forallb_forall in H. specialize (H m).
  assert (Hin' : In m clock_minutes).
  { unfold clock_minutes. rewrite <- (Z2Nat.id m) by lia. apply in_map, in_seq. lia. }
  specialize (H Hin'). rewrite forallb_forall in H. specialize (H pad).
  assert (Hpad : In pad [true; false]) by (destruct pad; simpl; auto).
  specialize (H Hpad). apply andb_true_iff in H as [Ham Hpm].
  assert (Hp : clock_text_check pad h12 m p = true) by (destruct p; assumption).
  unfold clock_text_check in Hp. cbv zeta in Hp.
  apply andb_true_iff in Hp as [Hp H4]. apply andb_true_iff in Hp as [Hp H3].
  apply andb_true_iff in Hp as [H1 H2].
  apply String.eqb_eq in H1, H2. apply negb_true_iff in H3.
  repeat split; try assumption.
  destruct (full_times (clock_text pad h12 m p)) as [|x [|y l]]; try discriminate.
  apply String.eqb_eq in H4. now subst.
Qed.

Lemma prefix_straddle c a b :
  String.prefix " - " (String c (String.append a (String " " (String "-" (String " " b)))))
  = String.prefix " - " (String c (String.append a " -")).
Proof.
  destruct a as [|d [|e a]]; cbn [String.append String.prefix];
    repeat match goal with
           | |- context [ascii_dec ?x ?y] => destruct (ascii_dec x y)
           end; try reflexivity; try discriminate; try congruence.
  now destruct (String.append a (String " " (String "-" (String " " b)))),
    (String.append a " -").
Qed.

Lemma split_segment_from :
  forall a b,
    contains " - " (String.append a " -") = false ->
    PyStr.split_from " - " 0 (String.append a (String " " (String "-" (String " " b))))
    = a :: PyStr.split_from " - " 0 b.
Proof.
  induction a as [|c a IH]; intros b H.
  - cbn [String.append PyStr.split_from].
    replace (String.prefix " - " (String " " (String "-" (String " " b)))) with true
      by (destruct b; reflexivity).
    reflexivity.
  - cbn [String.append contains] in H. apply orb_false_iff in H as [Hp Hc].
    cbn [String.append PyStr.split_from]. rewrite prefix_straddle, Hp, (IH b Hc).
    reflexivity.
Qed.

(** A first part in which the separator does not occur, nor across its
    end, is the first segment of the split. *)
Lemma split_segment a b :
  contains " - " (String.append a " -") = false ->
  PyStr.split " - " (String.append a (String.append " - " b))
  = a :: PyStr.split " - " b.
Proof. exact (split_segment_from a b). Qed.

Lemma digit_char_isdigit k : 0 <= k <= 9 -> PyStr.isdigit (digit_char k) = true.
Proof.
  intros Hk.
  assert (H : k = 0 \/ k = 1 \/ k = 2 \/ k = 3 \/ k = 4 \/ k = 5 \/ k = 6 \/ k = 7
              \/ k = 8 \/ k = 9) by lia.
  repeat (destruct H as [->|H]; [reflexivity|]). subst. reflexivity.
Qed.

(** The characters of a clock text. *)
Lemma clock_text_shape pad h12 m p :
  1 <= h12 <= 12 -> 0 <= m <= 59 ->
  exists c1 hd a b x,
    clock_text pad h12 m p
    = String c1 (String.append hd
        (String ":" (String a (String b (String x (String "m" EmptyString))))))
    /\ PyStr.isdigit c1 = true
    /\ (hd = EmptyString
        \/ exists c2, PyStr.isdigit c2 = true /\ hd = String c2 EmptyString)
    /\ PyStr.isdigit a = true /\ PyStr.isdigit b = true
    /\ (x = "a" \/ x = "p")%char.
Proof.
  intros Hh Hm. unfold clock_text, two_digits.
  assert (Ha : PyStr.isdigit (digit_char (m / 10)) = true)
    by (apply digit_char_isdigit; Z.div_mod_to_equations; lia).
  assert (Hb : PyStr.isdigit (digit_char (m mod 10)) = true)
    by (apply digit_char_isdigit; Z.div_mod_to_equations; lia).
  assert (Hx : exists x, meridiem_text p = String x (String "m" EmptyString)
                         /\ (x = "a" \/ x = "p")%char)
    by (destruct p; eexists; split; try reflexivity; auto).
  destruct Hx as [x [-> Hx]].
  destruct (pad || (10 <=? h12))%bool eqn:E.
  - exists (digit_char (h12 / 10)), (String (digit_char (h12 mod 10)) EmptyString),
      (digit_char (m / 10)), (digit_char (m mod 10)), x.
    split; [reflexivity|]. split; [apply digit_char_isdigit; Z.div_mod_to_equations; lia|].
    split; [right; eexists; split; [|reflexivity];
            apply digit_char_isdigit; Z.div_mod_to_equations; lia|auto].
  - apply orb_false_iff in E as [_ E]. apply Z.leb_gt in E.
    exists (digit_char h12), EmptyString,
      (digit_char (m / 10)), (digit_char (m mod 10)), x.
    split; [reflexivity|]. split; [apply digit_char_isdigit; lia|auto].
Qed.

(** The pattern matches a clock text at the start of any input, and
    leaves what follows it. *)
Lemma match_clock_text c1 hd a b x rest :
  PyStr.isdigit c1 = true ->
  (hd = EmptyString
   \/ exists c2, PyStr.isdigit c2 = true /\ hd = String c2 EmptyString) ->
  PyStr.isdigit a = true -> PyStr.isdigit b = true ->
  (x = "a" \/ x = "p")%char ->
  Re.match_at time_re
    (String c1 (String.append hd
       (String ":" (String a (String b (String x (String "m" rest)))))))
  = Some rest.
Proof.
  intros Hc1 Hhd Ha Hb Hx. unfold Re.match_at, time_re.
  destruct Hhd as [-> | [c2 [Hc2 ->]]]; destruct Hx as [-> | ->];
    cbn [String.append Re.match_k Re.rep_k Re.star_k Re.chr Nat.pred];
    rewrite ?Hc1, ?Hc2; cbn; rewrite ?Ha; cbn; rewrite ?Hb; reflexivity.
Qed.

Lemma findall_skip r rest :
  forall w, Re.findall_from r (String.length w) (String.append w rest)
            = Re.findall_from r 0 rest.
Proof.
  induction w as [|c w IH]; [now destruct rest|]. exact IH.
Qed.

(** A match at the start of the input is the first text found, and the
    search goes on after it. *)
Lemma findall_first r c w rest :
  Re.match_at r (String c (String.append w rest)) = Some rest ->
  Re.findall r (String c (String.append w rest))
  = String c w :: Re.findall r rest.
Proof.
  intros H. unfold Re.findall. cbn [Re.findall_from]. rewrite H.
  change (String c (String.append w rest)) with (String.append (String c w) rest).
  rewrite consumed_append. cbn [String.length Nat.pred]. now rewrite findall_skip.
Qed.

Lemma lower_append a b :
  PyStr.lower (String.append a b) = String.append (PyStr.lower a) (PyStr.lower b).
Proof. induction a as [|c a IH]; simpl; [reflexivity|now rewrite IH]. Qed.

Lemma findall_clock_text tok h m s :
  clock_token tok h m ->
  Re.findall time_re (String.append tok s) = tok :: Re.findall time_re s.
Proof.
  intros [pad [h12 [p [Hh [Hm [-> _]]]]]].
  destruct (clock_text_shape pad h12 m p Hh Hm)
    as [c1 [hd [a [b [x [-> [Hc1 [Hhd [Ha [Hb Hx]]]]]]]]]].
  cbn [String.append]. apply findall_first.
  rewrite append_assoc_string. cbn [String.append].
  apply match_clock_text; assumption.
Qed.

Lemma findall_not_digit c s :
  PyStr.isdigit c = false ->
  Re.findall time_re (String c s) = Re.findall time_re s.
Proof.
  intros H. unfold Re.findall. cbn [Re.findall_from].
  replace (Re.match_at time_re (String c s)) with (@None string); [reflexivity|].
  unfold Re.match_at, time_re. cbn [Re.match_k Re.rep_k]. now rewrite H.
Qed.

(** X7: a well-formed clock text at the start of a label is the first
    token found, whatever follows it and in whatever case the rest is
    written, and the tokens that follow are the tokens of the rest of the
    label. *)
Theorem full_times_leading_clock_text tok h m rest :
  clock_token tok h m ->
  full_times (String.append tok rest) = tok :: full_times rest.
Proof.
  intros Hc. destruct (clock_token_facts tok h m Hc) as [Hlow _].
  unfold full_times. rewrite lower_append, Hlow.
  exact (findall_clock_text tok h m (PyStr.lower rest) Hc).
Qed.

Lemma full_times_leading_clock_text_witness :
  full_times (String.append "8:00am" " Wednesday, November 26, 2025 then 9:15 PM")
  = "8:00am" :: full_times " Wednesday, November 26, 2025 then 9:15 PM".
Proof.
  apply (full_times_leading_clock_text "8:00am" 8 0).
  exists false, 8, AM. repeat split; try lia; reflexivity.
Defined.

(** ** The documented forms of a title, end to end *)

(** X8: in a title of three segments, [start - end - status] with two
    well-formed clock texts, [parse_title] returns the start alone as the
    time label and the end as the room name; the range resolved from the
    time label is then the hour that follows the start, whatever the end
    says. *)
Theorem title_start_end_status today t1 t2 status_text h1 m1 h2 m2 :
  1 <= today < Datetime.MAXORDINAL ->
  clock_token t1 h1 m1 ->
  clock_token t2 h2 m2 ->
  contains " - " status_text = false ->
  let title :=
    String.append t1 (String.append " - "
      (String.append t2 (String.append " - " status_text))) in
  let start_dt := Datetime.mk_datetime today h1 m1 0 0 in
  parse_title title = OK (t1, PyStr.strip status_text, t2)
  /\ exists end_dt,
      parse_time_range today t1 = OK (start_dt, end_dt)
      /\ Datetime.to_us end_dt = Datetime.to_us start_dt + 3600000000.
Proof.
  intros Ht H1 H2 Hst title start_dt.
  destruct (clock_token_facts t1 h1 m1 H1) as [_ [Hs1 [Hc1 Hf1]]].
  destruct (clock_token_facts t2 h2 m2 H2) as [_ [Hs2 [Hc2 _]]].
  split.
  - pose proof (parse_title_eq title) as E. cbv zeta in E. unfold title in E at 2 3 4 5 6 7.
    rewrite (split_segment t1 _ Hc1), (split_segment t2 _ Hc2),
      (split_not_contains " - " status_text Hst) in E.
    cbn [List.length Nat.ltb Nat.leb Nat.sub firstn map last nth PyStr.join String.concat]
      in E.
    rewrite Hs1, Hs2 in E. exact E.
  - destruct (clock_token_range _ _ _ H1) as [Hh Hm].
    pose proof (on_day_in_range _ _ (mk_on_day today h1 m1 Hh Hm)) as Hr.
    destruct (add_ok start_dt (Datetime.timedelta_new 0 1 0 0 0) Hr) as [end_dt E].
    + rewrite one_hour_us. lia.
    + exact Ht.
    + exists end_dt. split.
      * rewrite (parse_time_range_one today _ _ Hf1), (to_dt_clock_token today _ _ _ H1).
        cbn [bind Monad_result ret result_bind]. fold start_dt. rewrite E. reflexivity.
      * destruct (add_us _ _ _ E) as [Hus _]. rewrite Hus, one_hour_us. reflexivity.
Qed.

Lemma title_start_end_status_witness :
  parse_title "8:00am - 11:30am - Available" = OK ("8:00am", "Available", "11:30am")
  /\ exists end_dt,
      parse_time_range 739581 "8:00am" = OK (Datetime.mk_datetime 739581 8 0 0 0, end_dt)
      /\ Datetime.to_us end_dt
         = Datetime.to_us (Datetime.mk_datetime 739581 8 0 0 0) + 3600000000.
Proof.
  apply (title_start_end_status 739581 "8:00am" "11:30am" "Available" 8 0 11 30).
  - unfold Datetime.MAXORDINAL. lia.
  - exists false, 8, AM. repeat split; try lia; reflexivity.
  - exists false, 11, AM. repeat split; try lia; reflexivity.
  - reflexivity.
Defined.

(** X9: in a title of four segments, [start - end - room - status] with
    two well-formed clock texts, the time label keeps both texts and the
    range resolved from it runs from the start to the end, the end being
    moved to the next day when it is not after the start. *)
Theorem title_start_end_room_status today t1 t2 room status_text h1 m1 h2 m2 :
  1 <= today < Datetime.MAXORDINAL ->
  clock_token t1 h1 m1 ->
  clock_token t2 h2 m2 ->
  contains " - " (String.append room " -") = false ->
  contains " - " status_text = false ->
  let label := String.append t1 (String.append " - " t2) in
  let title :=
    String.append t1 (String.append " - "
      (String.append t2 (String.append " - "
        (String.append room (String.append " - " status_text))))) in
  let start_dt := Datetime.mk_datetime today h1 m1 0 0 in
  let same_day_end := Datetime.mk_datetime today h2 m2 0 0 in
  parse_title title = OK (label, PyStr.strip status_text, PyStr.strip room)
  /\ parse_time_range today label
     = OK (start_dt,
           if Datetime.le same_day_end start_dt
           then Datetime.mk_datetime (today + 1) h2 m2 0 0
           else same_day_end).
Proof.
  intros Ht H1 H2 Hroom Hst label title start_dt same_day_end.
  destruct (clock_token_facts t1 h1 m1 H1) as [Hl1 [Hs1 [Hc1 _]]].
  destruct (clock_token_facts t2 h2 m2 H2) as [Hl2 [Hs2 [Hc2 Hf2]]].
  split.
  - pose proof (parse_title_eq title) as E. cbv zeta in E.
    unfold title in E at 2 3 4 5 6 7.
    rewrite (split_segment t1 _ Hc1), (split_segment t2 _ Hc2),
      (split_segment room _ Hroom), (split_not_contains " - " status_text Hst) in E.
    cbn [List.length Nat.ltb Nat.leb Nat.sub firstn map last nth PyStr.join String.concat]
      in E.
    rewrite Hs1, Hs2 in E. exact E.
  - assert (Htok : full_times label = [t1; t2]).
    { unfold label, full_times. rewrite !lower_append, Hl1, Hl2.
      rewrite (findall_clock_text t1 h1 m1 _ H1).
      change (PyStr.lower " - ") with " - ". cbn [String.append].
      rewrite !findall_not_digit by reflexivity.
      unfold full_times in Hf2. rewrite Hl2 in Hf2. now rewrite Hf2. }
    destruct (clock_token_range _ _ _ H2) as [Hh Hm].
    rewrite (parse_time_range_two today _ _ _ _ Htok).
    rewrite (to_dt_clock_token today _ _ _ H1), (to_dt_clock_token today _ _ _ H2).
    cbn [bind Monad_result ret result_bind]. fold start_dt same_day_end.
    destruct (Datetime.le same_day_end start_dt).
    + unfold same_day_end. rewrite (add_one_day _ _ _ Ht Hh Hm). reflexivity.
    + reflexivity.
Qed.

Lemma title_start_end_room_status_witness :
  parse_title "11:00pm - 1:00am - Room 2121 - Unavailable"
  = OK ("11:00pm - 1:00am", "Unavailable", "Room 2121")
  /\ parse_time_range 739581 "11:00pm - 1:00am"
     = OK (Datetime.mk_datetime 739581 23 0 0 0, Datetime.mk_datetime 739582 1 0 0 0).
Proof.
  apply (title_start_end_room_status 739581 "11:00pm" "1:00am" "Room 2121" "Unavailable"
           23 0 1 0).
  - unfold Datetime.MAXORDINAL. lia.
  - exists false, 11, PM. repeat split; try lia; reflexivity.
  - exists false, 1, AM. repeat split; try lia; reflexivity.
  - reflexivity.
  - reflexivity.
Defined.

(** ** The entries of a resource, further *)

Lemma resolves_from_length e :
  forall k ts xs, resolves_from e k ts xs -> List.length xs = List.length ts.
Proof. induction 1; simpl; [reflexivity|now f_equal]. Qed.

Lemma resolves_from_in e :
  forall k ts xs,
    resolves_from e k ts xs ->
    forall x, In x xs -> exists k' title, In title ts /\ resolves e k' title x.
Proof.
  induction 1 as [|k title x0 ts xs Hx _ IH]; intros x Hin; [contradiction|].
  destruct Hin as [<-|Hin].
  - exists k, title. split; [now left|exact Hx].
  - destruct (IH x Hin) as [k' [t [Ht Hr]]]. exists k', t. split; [now right|exact Hr].
Qed.

(** X10: every entry returned for a resource carries the identifier that
    was asked for, comes from one of the titles of the cell, of which it
    has the time label and the status, and has a time label in which a
    clock token is found; and there are no more entries than titles. *)
Theorem fetch_single_eid_entries pg rid e st td results st' :
  timeline_lane pg rid = Some td ->
  fetch_single_eid pg rid e st = (OK results, st') ->
  (List.length results <= List.length (titles td))%nat
  /\ Forall (fun r =>
       eid r = rid
       /\ full_times (time r) <> []
       /\ exists title, In title (titles td) /\ label_of title = OK (time r, status r))
       results.
Proof.
  intros Hlane H.
  destruct (fetch_single_eid_result pg rid e st td results st' Hlane H) as [xs [Hxs ->]].
  split.
  - rewrite length_map, <- (resolves_from_length _ _ _ _ Hxs). apply filter_length_le.
  - apply Forall_forall. intros r Hr. apply in_map_iff in Hr as [[[ts ss] sd] [<- Hin]].
    apply filter_In in Hin as [Hin _].
    destruct (resolves_from_in _ _ _ _ Hxs _ Hin) as [k [title [Ht [rn [ed [Hp Hr]]]]]].
    cbn [event_of eid time status fst snd]. split; [reflexivity|]. split.
    + intros Hnil. rewrite (parse_time_range_none _ _ Hnil) in Hr. discriminate.
    + exists title. split; [exact Ht|]. unfold label_of. rewrite Hp. reflexivity.
Qed.

Lemma fetch_single_eid_entries_witness :
  (2 <= List.length (titles sample_lane))%nat
  /\ Forall (fun r =>
       eid r = "1001"
       /\ full_times (time r) <> []
       /\ exists title,
           In title (titles sample_lane) /\ label_of title = OK (time r, status r))
       [ mk_event "1001" "2121" "1:00pm" "Available";
         mk_event "1001" "2121" "11:00pm - 1:00am" "Unavailable" ].
Proof.
  apply (fetch_single_eid_entries sample_page "1001" (sample_env "1001") sample_state
           sample_lane
           [ mk_event "1001" "2121" "1:00pm" "Available";
             mk_event "1001" "2121" "11:00pm - 1:00am" "Unavailable" ]
           (mk_state 4 (files sample_state))); reflexivity.
Defined.

(** The loop stops at the first title whose time label does not resolve. *)
Lemma for_events_raises rid name now e label status_str room x after :
  forall before k xs,
    resolves_from e k before xs ->
    forall c t results st,
      reads st = k ->
      parse_title (String c t) = OK (label, status_str, room) ->
      parse_time_range (Datetime.ordinal (clock e (k + List.length before))) label
      = Raise x ->
      fst (for_events rid name now
             (map (fun t => mk_anchor (Some t)) (before ++ String c t :: after))
             results e st)
      = Raise x.
Proof.
  intros before k xs Hres.
  induction Hres as [k|k title x0 ts xs0 Hx _ IH]; intros c t results st Hk Hp Hr.
  - cbn [app map]. rewrite for_events_cons. cbn [title_attribute].
    rewrite Hp. rewrite Hk. cbn [List.length] in Hr. rewrite Nat.add_0_r in Hr.
    rewrite Hr. reflexivity.
  - cbn [app map]. rewrite for_events_cons. cbn [title_attribute].
    destruct x0 as [[ts0 ss0] sd0]. destruct Hx as [rn [ed [Hp0 Hr0]]].
    assert (Hne : title <> EmptyString).
    { intros ->. vm_compute in Hp0. injection Hp0 as <- _ _.
      rewrite (parse_time_range_none _ EmptyString eq_refl) in Hr0. discriminate. }
    destruct title as [|c0 t0]; [contradiction|].
    rewrite Hp0, Hk, Hr0.
    cbn [List.length] in Hr. rewrite <- Nat.add_succ_comm in Hr.
    destruct (Datetime.lt sd0 now); apply IH; try assumption;
      unfold tick; cbn [reads]; now rewrite Hk.
Qed.

(** X11: in a cell, the first title whose time label does not resolve
    makes the scrape of the resource raise that error: the entries of the
    titles before it are not returned. *)
Theorem fetch_single_eid_bad_label pg rid e st td before title after xs
  label status_str room x :
  timeline_lane pg rid = Some td ->
  titles td = before ++ title :: after ->
  resolves_from e (S (reads st)) before xs ->
  parse_title title = OK (label, status_str, room) ->
  parse_time_range (Datetime.ordinal (clock e (S (reads st) + List.length before))) label
  = Raise x ->
  fst (fetch_single_eid pg rid e st) = Raise x.
Proof.
  intros Hlane Ht Hres Hp Hr. unfold fetch_single_eid. rewrite Hlane.
  unfold datetime_now. cbn [bind Monad_M]. unfold M_bind. fold (tick st).
  rewrite for_events_titles, titles_selected, Ht.
  assert (Hne : nonempty title = true).
  { pose proof (titles_nonempty td) as Hall. rewrite Ht, Forall_forall in Hall.
    apply Hall, in_or_app. right. now left. }
  destruct title as [|c t]; [discriminate|].
  exact (for_events_raises rid _ _ e label status_str room x after before
           (S (reads st)) xs Hres c t [] (tick st) eq_refl Hp Hr).
Qed.

Lemma fetch_single_eid_bad_label_witness :
  fst (fetch_single_eid
         (mk_page (fun _ => Some [ mk_anchor (Some "1:00pm - 2:00pm - Available");
                                   mk_anchor (Some "Closed - All day") ])
                  (fun _ => None))
         "1001" (sample_env "1001") sample_state)
  = Raise (ValueError_no_time "Closed").
Proof.
  apply (fetch_single_eid_bad_label _ "1001" (sample_env "1001") sample_state
           [ mk_anchor (Some "1:00pm - 2:00pm - Available");
             mk_anchor (Some "Closed - All day") ]
           ["1:00pm - 2:00pm - Available"] "Closed - All day" []
           [("1:00pm", "Available", Datetime.mk_datetime 739581 13 0 0 0)]
           "Closed" "All day" "Unknown").
  - reflexivity.
  - reflexivity.
  - constructor; [|constructor].
    exists "2:00pm", (Datetime.mk_datetime 739581 14 0 0 0). split; reflexivity.
  - reflexivity.
  - reflexivity.
Defined.

(** ** The identifier file *)

Lemma all_in_lstrip p s : Re.all_in p s -> Re.all_in p (PyStr.lstrip s).
Proof.
  induction s as [|c s IH]; intros H; [exact H|]. cbn [PyStr.lstrip].
  destruct (PyStr.isspace c); [apply IH; exact (proj2 H)|exact H].
Qed.

Lemma all_in_strip p s : Re.all_in p s -> Re.all_in p (PyStr.strip s).
Proof.
  intros H. unfold PyStr.strip. apply all_in_lstrip in H.
  destruct (rstrip_prefix (PyStr.lstrip s)) as [w E]. rewrite E in H.
  exact (proj1 (proj1 (all_in_append p _ _) H)).
Qed.

Lemma strip_all_space s : Re.all_in PyStr.isspace s -> PyStr.strip s = EmptyString.
Proof.
  intros H. unfold PyStr.strip.
  replace (PyStr.lstrip s) with EmptyString; [reflexivity|].
  induction s as [|c s IH]; [reflexivity|]. destruct H as [Hc Hs].
  cbn [PyStr.lstrip]. rewrite Hc. exact (IH Hs).
Qed.

Lemma file_lines_not_nil content : file_lines content <> [].
Proof.
  destruct content as [|c content]; cbn [file_lines]; [discriminate|].
  destruct (Ascii.eqb c "010" || Ascii.eqb c "013")%bool; [discriminate|].
  destruct (file_lines content); discriminate.
Qed.

(** No line holds a line feed or a carriage return. *)
Lemma file_lines_no_newline content :
  Forall (Re.all_in (fun c => negb (Ascii.eqb c "010" || Ascii.eqb c "013")))
         (file_lines content).
Proof.
  induction content as [|c content IH]; cbn [file_lines].
  - constructor; [exact I|constructor].
  - destruct (Ascii.eqb c "010" || Ascii.eqb c "013")%bool eqn:Hc.
    + constructor; [exact I|exact IH].
    + destruct (file_lines content) as [|line lines]; [constructor; [|constructor]|].
      * simpl. now rewrite Hc.
      * inversion IH as [|? ? Hl Hls]; subst. constructor; [|exact Hls].
        simpl. now rewrite Hc.
Qed.

(** The lines of a text of white space are white space. *)
Lemma file_lines_all_space content :
  Re.all_in PyStr.isspace content ->
  Forall (Re.all_in PyStr.isspace) (file_lines content).
Proof.
  induction content as [|c content IH]; intros H; cbn [file_lines].
  - constructor; [exact I|constructor].
  - destruct H as [Hc Hs]. specialize (IH Hs).
    destruct (Ascii.eqb c "010" || Ascii.eqb c "013")%bool.
    + constructor; [exact I|exact IH].
    + destruct (file_lines content) as [|line lines]; [constructor; [|constructor]|].
      * simpl. auto.
      * inversion IH as [|? ? Hl Hls]; subst. constructor; [|exact Hls].
        simpl. auto.
Qed.

(** X12: the identifiers read from the file are never empty, are
    stripped, and hold no line feed nor carriage return; reading them
    changes nothing. *)
Theorem read_eids_clean e st eids st' :
  read_eids e st = (OK eids, st') ->
  st' = st
  /\ Forall (fun rid =>
       rid <> EmptyString /\ PyStr.strip rid = rid
       /\ Re.all_in (fun c => negb (Ascii.eqb c "010" || Ascii.eqb c "013")) rid)
       eids.
Proof.
  unfold read_eids. destruct (eid_file e) as [content|]; [|discriminate].
  intros H. injection H as <- <-. split; [reflexivity|].
  apply Forall_forall. intros rid Hin. apply in_map_iff in Hin as [line [<- Hin]].
  apply filter_In in Hin as [Hin Hne].
  split; [|split].
  - intros E. rewrite E in Hne. discriminate.
  - apply strip_idem.
  - apply all_in_strip. pose proof (file_lines_no_newline content) as Hall.
    rewrite Forall_forall in Hall. exact (Hall line Hin).
Qed.

Lemma read_eids_clean_witness :
  sample_state = sample_state
  /\ Forall (fun rid =>
       rid <> EmptyString /\ PyStr.strip rid = rid
       /\ Re.all_in (fun c => negb (Ascii.eqb c "010" || Ascii.eqb c "013")) rid)
       ["1001"; "1002"].
Proof.
  apply (read_eids_clean (sample_env sample_eids) sample_state ["1001"; "1002"]
           sample_state).
  reflexivity.
Defined.

Lemma read_eids_blank e st content :
  eid_file e = Some content ->
  Re.all_in PyStr.isspace content ->
  read_eids e st = (OK [], st).
Proof.
  intros Hf Hsp. unfold read_eids. rewrite Hf.
  replace (filter (fun line => nonempty (PyStr.strip line)) (file_lines content))
    with (@nil string); [reflexivity|].
  pose proof (file_lines_all_space content Hsp) as Hall.
  induction Hall as [|line lines Hl _ IH]; [reflexivity|].
  cbn [filter]. rewrite (strip_all_space line Hl). exact IH.
Qed.

(** X13: when the identifier file is empty or holds white space only, a
    run that reaches the page gathers nothing and does not read the
    clock; when the write of [record.json] then goes through, the answer
    is the success with a count of zero and [record.json] holds the empty
    array. *)
Theorem run_fetch_blank_eid_file e st content pg :
  eid_file e = Some content ->
  Re.all_in PyStr.isspace content ->
  browser e = OK pg ->
  disk e record_json "[]" = Written ->
  fetch_all e st = (OK [], st)
  /\ exists st',
      run_fetch e st = (OK (mk_response 200 (Success 0)), st')
      /\ files st' record_json = Some "[]"
      /\ reads st' = reads st.
Proof.
  intros Hf Hsp Hb Hw.
  assert (fetch_all e st = (OK [], st)) as Hall.
  { unfold fetch_all. cbn [bind Monad_M]. unfold M_bind.
    rewrite (read_eids_blank e st content Hf Hsp). unfold open_page. rewrite Hb.
    reflexivity. }
  split; [exact Hall|].
  unfold run_fetch, try_except. cbn [bind Monad_M ret]. unfold M_bind.
  rewrite Hall. unfold save_json.
  change (Json.json_dump []) with "[]". rewrite Hw.
  unfold M_ret. cbn [List.length].
  eexists. split; [reflexivity|]. cbn [files reads set_file].
  rewrite String.eqb_refl. auto.
Qed.

Lemma run_fetch_blank_eid_file_witness :
  fetch_all (sample_env (String "010" " ")) sample_state = (OK [], sample_state)
  /\ exists st',
      run_fetch (sample_env (String "010" " ")) sample_state
      = (OK (mk_response 200 (Success 0)), st')
      /\ files st' record_json = Some "[]"
      /\ reads st' = reads sample_state.
Proof.
  apply (run_fetch_blank_eid_file (sample_env (String "010" " ")) sample_state
           (String "010" " ") sample_page).
  - reflexivity.
  - repeat split.
  - reflexivity.
  - reflexivity.
Defined.

(** ** The batch, further *)

Lemma for_eids_returns pg e :
  forall st eids rest st',
    batch_from pg e st eids rest st' ->
    forall all_results,
      for_eids pg eids all_results e st = (OK (all_results ++ List.concat rest), st').
Proof.
  induction 1 as [st|st rid data st1 eids rest st' Hf _ IH]; intros all_results.
  - simpl. now rewrite app_nil_r.
  - rewrite for_eids_cons, Hf, IH. cbn [List.concat]. now rewrite app_assoc.
Qed.

(** X14: when the identifier file is read and the page is reached,
    [fetch_all] returns exactly when the scrape of every resource
    returns, one after the other in the order of the file, and its result
    is then the concatenation of theirs in that order. *)
Theorem fetch_all_concat e st eids pg out st' :
  read_eids e st = (OK eids, st) ->
  browser e = OK pg ->
  fetch_all e st = (OK out, st')
  <-> exists rest, batch_from pg e st eids rest st' /\ out = List.concat rest.
Proof.
  intros Hr Hb. unfold fetch_all. cbn [bind Monad_M]. unfold M_bind.
  rewrite Hr. unfold open_page. rewrite Hb. split.
  - intros H. destruct (for_eids_result pg e eids [] st out st' H) as [rest [Hbatch ->]].
    exists rest. auto.
  - intros [rest [Hbatch ->]]. exact (for_eids_returns pg e st eids rest st' Hbatch []).
Qed.

Lemma fetch_all_concat_witness :
  fetch_all (sample_env "1001") sample_state
  = (OK [ mk_event "1001" "2121" "1:00pm" "Available";
          mk_event "1001" "2121" "11:00pm - 1:00am" "Unavailable" ],
     mk_state 4 (files sample_state))
  <-> exists rest,
      batch_from sample_page (sample_env "1001") sample_state ["1001"] rest
                 (mk_state 4 (files sample_state))
      /\ [ mk_event "1001" "2121" "1:00pm" "Available";
           mk_event "1001" "2121" "11:00pm - 1:00am" "Unavailable" ]
         = List.concat rest.
Proof.
  apply (fetch_all_concat (sample_env "1001") sample_state ["1001"] sample_page);
    reflexivity.
Defined.

Lemma for_eids_raises pg e rid after x st2 :
  forall st before rest st1,
    batch_from pg e st before rest st1 ->
    fetch_single_eid pg rid e st1 = (Raise x, st2) ->
    forall all_results,
      for_eids pg (before ++ rid :: after) all_results e st = (Raise x, st2).
Proof.
  induction 1 as [st|st rid0 data st1 eids rest st' Hf _ IH]; intros Hx all_results.
  - cbn [app]. rewrite for_eids_cons, Hx. reflexivity.
  - cbn [app]. rewrite for_eids_cons, Hf. apply IH. exact Hx.
Qed.

(** X15: the first resource whose scrape raises ends the batch: the
    resources after it are not scraped, [run_fetch] answers with that
    error, and the state is the one that resource left, [record.json]
    included. *)
Theorem run_fetch_first_failure e st pg before rid after rest st1 x st2 :
  read_eids e st = (OK (before ++ rid :: after), st) ->
  browser e = OK pg ->
  batch_from pg e st before rest st1 ->
  fetch_single_eid pg rid e st1 = (Raise x, st2) ->
  run_fetch e st = (OK (mk_response 200 (Error x)), st2)
  /\ files st2 = files st.
Proof.
  intros Hr Hb Hbatch Hx. split.
  - unfold run_fetch, try_except, fetch_all. cbn [bind Monad_M ret]. unfold M_bind.
    rewrite Hr. unfold open_page. rewrite Hb.
    rewrite (for_eids_raises pg e rid after x st2 st before rest st1 Hbatch Hx []).
    reflexivity.
  - pose proof (fetch_single_eid_files pg rid e st1) as H2. rewrite Hx in H2.
    cbn [snd] in H2. rewrite H2. clear Hx H2 Hr.
    induction Hbatch as [st|st rid0 data st1 eids rest st' Hf _ IH]; [reflexivity|].
    rewrite IH. pose proof (fetch_single_eid_files pg rid0 e st) as H1.
    rewrite Hf in H1. exact H1.
Qed.

Lemma run_fetch_first_failure_witness :
  run_fetch (sample_env sample_eids) sample_state
  = (OK (mk_response 200 (Error (ValueError_no_time "Closed"))),
     mk_state 6 (files sample_state))
  /\ files (mk_state 6 (files sample_state)) = files sample_state.
Proof.
  apply (run_fetch_first_failure (sample_env sample_eids) sample_state sample_page
           ["1001"] "1002" []
           [[ mk_event "1001" "2121" "1:00pm" "Available";
              mk_event "1001" "2121" "11:00pm - 1:00am" "Unavailable" ]]
           (mk_state 4 (files sample_state))).
  - reflexivity.
  - reflexivity.
  - apply batch_cons with (st1 := mk_state 4 (files sample_state));
      [reflexivity|constructor].
  - reflexivity.
Defined.

(** X16: when the identifier file is missing, [run_fetch] answers with
    the [FileNotFoundError] whatever the browser would have done; when the
    file is there and the page cannot be reached, it answers with the
    error of the browser.  In both cases nothing changes: the clock is not
    read and no file is written. *)
Theorem run_fetch_without_inputs e st x :
  (eid_file e = None /\ x = FileNotFoundError eid_filename)
  \/ (eid_file e <> None /\ browser e = Raise x) ->
  run_fetch e st = (OK (mk_response 200 (Error x)), st).
Proof.
  intros [[Hf ->]|[Hf Hb]];
    unfold run_fetch, try_except, fetch_all, read_eids, open_page;
    cbn [bind Monad_M ret]; unfold M_bind.
  - rewrite Hf. reflexivity.
  - destruct (eid_file e) as [content|]; [|congruence].
    rewrite Hb. reflexivity.
Qed.

Lemma run_fetch_without_inputs_witness :
  run_fetch (mk_env (clock (sample_env "1001")) None
     (Raise (PlaywrightError "net::ERR_NAME_NOT_RESOLVED")) (disk (sample_env "1001")))
            sample_state
  = (OK (mk_response 200 (Error (FileNotFoundError eid_filename))), sample_state).
Proof.
  apply (run_fetch_without_inputs
           (mk_env (clock (sample_env "1001")) None
     (Raise (PlaywrightError "net::ERR_NAME_NOT_RESOLVED")) (disk (sample_env "1001")))
           sample_state (FileNotFoundError eid_filename)).
  left. split; reflexivity.
Defined.

(** X17: [run_fetch] writes no file other than [record.json], whether the
    run succeeds or fails. *)
Theorem run_fetch_other_files e st f :
  f <> record_json ->
  files (snd (run_fetch e st)) f = files st f.
Proof.
  intros Hf. unfold run_fetch, try_except. cbn [bind Monad_M ret]. unfold M_bind, M_ret.
  pose proof (fetch_all_files e st) as Hfiles.
  destruct (fetch_all e st) as [[data|x] st1]; cbn [fst snd] in *.
  - unfold save_json. apply String.eqb_neq in Hf.
    destruct (disk e record_json (Json.json_dump data)) as [|x|x remains];
      cbn [snd files set_file]; rewrite ?Hf, Hfiles; reflexivity.
  - now rewrite Hfiles.
Qed.

Lemma run_fetch_other_files_witness :
  files (snd (run_fetch (sample_env "1001") sample_state)) "static/index.html"
  = files sample_state "static/index.html".
Proof.
  apply (run_fetch_other_files (sample_env "1001") sample_state "static/index.html").
  discriminate.
Defined.

(** ** The text of [record.json] *)

Lemma unescape_escape (c : ascii) (u : string) :
  Json.unescape_first (String.append (Json.escape c) u) = Some (c, u).
Proof. destruct c as [[] [] [] [] [] [] [] []]; reflexivity. Qed.

Lemma append_inj_l (a x y : string) :
  String.append a x = String.append a y -> x = y.
Proof.
  induction a as [|c a IH]; cbn [String.append]; intros H.
  - exact H.
  - injection H as H. exact (IH H).
Qed.

Lemma string_cons_inj (c : ascii) (x y : string) :
  String c x = String c y -> x = y.
Proof. intros H. injection H as H. exact H. Qed.

Lemma escaped_inj (s1 : string) :
  forall s2 r1 r2,
    Json.escaped s1 (String Json.quote r1) = Json.escaped s2 (String Json.quote r2) ->
    s1 = s2 /\ r1 = r2.
Proof.
  induction s1 as [|c1 s1 IH]; intros [|c2 s2] r1 r2 H; cbn [Json.escaped] in H.
  - injection H as H. auto.
  - apply (f_equal Json.unescape_first) in H.
    rewrite unescape_escape in H. discriminate H.
  - apply (f_equal Json.unescape_first) in H.
    rewrite unescape_escape in H. discriminate H.
  - apply (f_equal Json.unescape_first) in H.
    rewrite !unescape_escape in H.
    injection H as Hc Ht. subst c2.
    destruct (IH _ _ _ Ht) as [-> ->]. auto.
Qed.

Lemma encode_basestring_inj (v1 v2 r1 r2 : string) :
  Json.encode_basestring v1 r1 = Json.encode_basestring v2 r2 ->
  v1 = v2 /\ r1 = r2.
Proof.
  unfold Json.encode_basestring. intros H. apply string_cons_inj in H.
  exact (escaped_inj _ _ _ _ H).
Qed.

Lemma member_inj (lead key v1 v2 r1 r2 : string) :
  Json.member lead key v1 r1 = Json.member lead key v2 r2 ->
  v1 = v2 /\ r1 = r2.
Proof.
  unfold Json.member. intros H.
  apply append_inj_l in H. apply append_inj_l in H.
  apply encode_basestring_inj in H. destruct H as [_ H].
  apply append_inj_l in H.
  exact (encode_basestring_inj _ _ _ _ H).
Qed.

Lemma dump_event_inj (e1 e2 : event) (r1 r2 : string) :
  Json.dump_event e1 r1 = Json.dump_event e2 r2 -> e1 = e2 /\ r1 = r2.
Proof.
  unfold Json.dump_event. intros H.
  apply member_inj in H. destruct H as [H1 H].
  apply member_inj in H. destruct H as [H2 H].
  apply member_inj in H. destruct H as [H3 H].
  apply member_inj in H. destruct H as [H4 H].
  apply append_inj_l in H. apply string_cons_inj in H.
  destruct e1, e2. cbn [eid Name time status] in *. subst. auto.
Qed.

Lemma dump_event_head (ev : event) (rest : string) :
  exists t, Json.dump_event ev rest = String "{" t.
Proof.
  unfold Json.dump_event. unfold Json.member at 1.
  cbn [String.append]. eexists. reflexivity.
Qed.

Lemma dump_items_inj (d1 : list event) :
  forall d2,
    Json.dump_items d1 (String.append (Json.newline_indent 0) "]")
    = Json.dump_items d2 (String.append (Json.newline_indent 0) "]") ->
    d1 = d2.
Proof.
  induction d1 as [|e1 d1 IH]; intros [|e2 d2] H; cbn [Json.dump_items] in H.
  - reflexivity.
  - destruct (dump_event_head e2
                (match d2 with
                 | [] => String.append (Json.newline_indent 0) "]"
                 | _ :: _ =>
                     String "," (String.append (Json.newline_indent 1)
                       (Json.dump_items d2 (String.append (Json.newline_indent 0) "]")))
                 end)) as [t Ht].
    rewrite Ht in H. discriminate H.
  - destruct (dump_event_head e1
                (match d1 with
                 | [] => String.append (Json.newline_indent 0) "]"
                 | _ :: _ =>
                     String "," (String.append (Json.newline_indent 1)
                       (Json.dump_items d1 (String.append (Json.newline_indent 0) "]")))
                 end)) as [t Ht].
    rewrite Ht in H. discriminate H.
  - apply dump_event_inj in H. destruct H as [-> H].
    destruct d1 as [|a1 d1], d2 as [|a2 d2].
    + reflexivity.
    + discriminate H.
    + discriminate H.
    + apply string_cons_inj in H. apply append_inj_l in H.
      f_equal. exact (IH _ H).
Qed.

Lemma json_dump_inj (d1 d2 : list event) :
  Json.json_dump d1 = Json.json_dump d2 -> d1 = d2.
Proof.
  destruct d1 as [|e1 d1], d2 as [|e2 d2]; unfold Json.json_dump; intros H.
  - reflexivity.
  - discriminate H.
  - discriminate H.
  - apply string_cons_inj in H. apply append_inj_l in H.
    exact (dump_items_inj _ _ H).
Qed.

(** X18: the text that [save_json] writes determines the data: two
    different lists of entries never give the same document, whatever
    characters (quotes, backslashes, control characters) their fields
    hold. *)
Theorem json_dump_distinct (d1 d2 : list event) :
  d1 <> d2 -> Json.json_dump d1 <> Json.json_dump d2.
Proof.
  intros Hne Heq. apply Hne. exact (json_dump_inj d1 d2 Heq).
Qed.

Lemma json_dump_distinct_witness :
  Json.json_dump [mk_event "1001" "2121" (String Json.quote "1:00pm") "Available"]
  <> Json.json_dump [mk_event "1001" "2121" (String Json.backslash "1:00pm") "Available"].
Proof.
  apply (json_dump_distinct
           [mk_event "1001" "2121" (String Json.quote "1:00pm") "Available"]
           [mk_event "1001" "2121" (String Json.backslash "1:00pm") "Available"]).
  discriminate.
Defined.
